(** * FieldPro storage layer: a shallow embedding of [server/storage.ts]

    The in-memory store [MemStorage] keeps one ECMAScript [Map] per entity
    type.  Every operation of the class is rendered here as a pure function
    on a [Store] record.  The two ambient sources of non-determinism,
    [randomUUID()] and [new Date()], become explicit arguments: an operation
    that draws an identifier takes it as [id], and every clock reading is a
    millisecond timestamp in [Z]. *)

From Stdlib Require Import ZArith List String Bool Lia Permutation Sorted.
From Stdlib Require Import DecimalString PrimFloat.
Import ListNotations.

Local Open Scope string_scope.
Local Open Scope Z_scope.

(** ** Insertion-ordered maps

    [Array.from(map.values())] enumerates a [Map] in insertion order, and the
    list views of the store expose that order, so a map is an association
    list: [set] on a present key overwrites the value in place, [set] on a
    new key appends, and [delete] removes the entry. *)

Module JsMap.

Definition t (V : Type) : Type := list (string * V).

Definition empty {V : Type} : t V := [].

Fixpoint get {V : Type} (m : t V) (k : string) : option V :=
  match m with
  | [] => None
  | (k', v) :: m' => if String.eqb k' k then Some v else get m' k
  end.

Definition has {V : Type} (m : t V) (k : string) : bool :=
  match get m k with Some _ => true | None => false end.

Fixpoint set {V : Type} (m : t V) (k : string) (v : V) : t V :=
  match m with
  | [] => [(k, v)]
  | (k', v') :: m' =>
      if String.eqb k' k then (k', v) :: m' else (k', v') :: set m' k v
  end.

Definition remove {V : Type} (m : t V) (k : string) : t V :=
  filter (fun e => negb (String.eqb (fst e) k)) m.

(** [Map.prototype.delete] answers whether the key was present. *)
Definition delete {V : Type} (m : t V) (k : string) : t V * bool :=
  (remove m k, has m k).

Definition keys {V : Type} (m : t V) : list string := map fst m.

Definition values {V : Type} (m : t V) : list V := map snd m.

(** A [Map] never holds a key twice. *)
Definition wf {V : Type} (m : t V) : Prop := NoDup (keys m).

End JsMap.

(** ** [Array.prototype.sort] with a comparator

    The ECMAScript sort is stable; for a consistent comparator its result is
    the unique stable sorted arrangement, which insertion from the right
    computes: an element is placed in front of the first element it does not
    exceed, so it stays in front of later elements that compare equal. *)

Section Sort.
Context {A : Type}.
Variable cmp : A -> A -> Z.

Fixpoint insert (x : A) (l : list A) : list A :=
    match l with
    | [] => [x]
    | y :: l' => if cmp x y <=? 0 then x :: y :: l' else y :: insert x l'
    end.

Definition sort (l : list A) : list A := fold_right insert [] l.

(** [before a b]: the comparator lets [a] stand in front of [b]. *)
Definition before (a b : A) : Prop := cmp a b <= 0.
End Sort.

(** ** Entities ([shared/schema.ts])

    Timestamps are [Date]s, held as milliseconds since the epoch.  A nullable
    column is an [option]; [None] stands for both [null] and an absent
    property, which no operation of the store tells apart.  [real] columns
    are IEEE doubles. *)

Module Project.
Record t : Type := mk {
    id : string;
    name : string;
    description : option string;
    location : option string;
    status : option string;
    type : string;
    createdAt : Z;
    updatedAt : Z
  }.
End Project.

(** [InsertProject]: the insert schema omits [id], [createdAt], [updatedAt];
    [status] has a column default and is therefore optional. *)
Module InsertProject.
Record t : Type := mk {
    name : string;
    description : option string;
    location : option string;
    status : option string;
    type : string
  }.
End InsertProject.

(** [Partial<InsertProject>]: the outer [option] says whether the key is
    present in the update object. *)
Module PartialProject.
Record t : Type := mk {
    name : option string;
    description : option (option string);
    location : option (option string);
    status : option string;
    type : option string
  }.
Definition none : t := mk None None None None None.
End PartialProject.

Module Photo.
Record t : Type := mk {
    id : string;
    projectId : string;
    filename : string;
    description : option string;
    latitude : option float;
    longitude : option float;
    takenAt : Z;
    createdAt : Z
  }.
End Photo.

Module InsertPhoto.
Record t : Type := mk {
    projectId : string;
    filename : string;
    description : option string;
    latitude : option float;
    longitude : option float;
    takenAt : option Z
  }.
End InsertPhoto.

Module Document.
Record t : Type := mk {
    id : string;
    projectId : string;
    filename : string;
    originalName : string;
    type : string;
    size : Z;
    uploadedAt : Z
  }.
End Document.

Module InsertDocument.
Record t : Type := mk {
    projectId : string;
    filename : string;
    originalName : string;
    type : string;
    size : Z
  }.
End InsertDocument.

Module MaterialTest.
Record t : Type := mk {
    id : string;
    name : string;
    category : string;
    specification : string;
    createdAt : Z;
    updatedAt : Z
  }.
End MaterialTest.

Module InsertMaterialTest.
Record t : Type := mk {
    name : string;
    category : string;
    specification : string
  }.
End InsertMaterialTest.

Module TestResult.
Record t : Type := mk {
    id : string;
    projectId : string;
    materialTestId : string;
    result : string;
    status : string;
    testedAt : Z
  }.
End TestResult.

Module InsertTestResult.
Record t : Type := mk {
    projectId : string;
    materialTestId : string;
    result : string;
    status : string
  }.
End InsertTestResult.

(** [completed] is a nullable boolean column with default [false]; the store
    does not fill the default in, so a reminder created without the field
    keeps it absent. *)
Module Reminder.
Record t : Type := mk {
    id : string;
    projectId : string;
    title : string;
    type : string;
    scheduledFor : Z;
    completed : option bool;
    createdAt : Z
  }.
End Reminder.

Module InsertReminder.
Record t : Type := mk {
    projectId : string;
    title : string;
    type : string;
    scheduledFor : Z;
    completed : option bool
  }.
End InsertReminder.

Module CalendarEvent.
Record t : Type := mk {
    id : string;
    projectId : string;
    title : string;
    description : option string;
    date : Z;
    type : string;
    createdAt : Z
  }.
End CalendarEvent.

Module InsertCalendarEvent.
Record t : Type := mk {
    projectId : string;
    title : string;
    description : option string;
    date : Z;
    type : string
  }.
End InsertCalendarEvent.

(** Read-side views: an entity extended with derived fields. *)

Record ProjectWithCounts : Type := {
  pwc_project : Project.t;
  photoCount : nat;
  documentCount : nat;
  nextInspection : option string
}.

Record TestResultView : Type := {
  trv_result : TestResult.t;
  trv_projectName : string;
  trv_testName : string
}.

Record ReminderView : Type := {
  rv_reminder : Reminder.t;
  rv_projectName : string
}.

Record CalendarEventView : Type := {
  cev_event : CalendarEvent.t;
  cev_projectName : string
}.

Record ProjectStats : Type := {
  activeProjects : nat;
  photosCount : nat;
  pendingInspections : nat;
  documentsCount : nat
}.

(** ** The store *)

Record Store : Type := {
  projects : JsMap.t Project.t;
  photos : JsMap.t Photo.t;
  documents : JsMap.t Document.t;
  materialTests : JsMap.t MaterialTest.t;
  testResults : JsMap.t TestResult.t;
  reminders : JsMap.t Reminder.t;
  calendarEvents : JsMap.t CalendarEvent.t
}.

Definition emptyStore : Store :=
  {| projects := JsMap.empty; photos := JsMap.empty; documents := JsMap.empty;
     materialTests := JsMap.empty; testResults := JsMap.empty;
     reminders := JsMap.empty; calendarEvents := JsMap.empty |}.

Definition with_projects (s : Store) (m : JsMap.t Project.t) : Store :=
  {| projects := m; photos := photos s; documents := documents s;
     materialTests := materialTests s; testResults := testResults s;
     reminders := reminders s; calendarEvents := calendarEvents s |}.

Definition with_photos (s : Store) (m : JsMap.t Photo.t) : Store :=
  {| projects := projects s; photos := m; documents := documents s;
     materialTests := materialTests s; testResults := testResults s;
     reminders := reminders s; calendarEvents := calendarEvents s |}.

Definition with_documents (s : Store) (m : JsMap.t Document.t) : Store :=
  {| projects := projects s; photos := photos s; documents := m;
     materialTests := materialTests s; testResults := testResults s;
     reminders := reminders s; calendarEvents := calendarEvents s |}.

Definition with_materialTests (s : Store) (m : JsMap.t MaterialTest.t) : Store :=
  {| projects := projects s; photos := photos s; documents := documents s;
     materialTests := m; testResults := testResults s;
     reminders := reminders s; calendarEvents := calendarEvents s |}.

Definition with_testResults (s : Store) (m : JsMap.t TestResult.t) : Store :=
  {| projects := projects s; photos := photos s; documents := documents s;
     materialTests := materialTests s; testResults := m;
     reminders := reminders s; calendarEvents := calendarEvents s |}.

Definition with_reminders (s : Store) (m : JsMap.t Reminder.t) : Store :=
  {| projects := projects s; photos := photos s; documents := documents s;
     materialTests := materialTests s; testResults := testResults s;
     reminders := m; calendarEvents := calendarEvents s |}.

Definition with_calendarEvents (s : Store) (m : JsMap.t CalendarEvent.t) : Store :=
  {| projects := projects s; photos := photos s; documents := documents s;
     materialTests := materialTests s; testResults := testResults s;
     reminders := reminders s; calendarEvents := m |}.

(** ** ECMAScript value conventions used by the store *)

(** Truthiness of a nullable boolean: [!r.completed] holds for [false],
    [null] and an absent field alike. *)
Definition truthy (b : option bool) : bool :=
  match b with
  | Some true => true
  | _ => false
  end.

(** [x?.name || fallback] on strings: the fallback is taken when the object
    is missing and also when the string is empty, the one falsy string. *)
Definition or_default (x : option string) (fallback : string) : string :=
  match x with
  | Some EmptyString => fallback
  | Some v => v
  | None => fallback
  end.

(** [`${n}`] for an integer-valued number. *)
Definition number_to_string (n : Z) : string :=
  NilZero.string_of_int (Z.to_int n).

(** [Math.ceil(x / d)] for integers [x] and [d > 0].  The runtime divides in
    double precision; for [|x| < 2^53] and [d] the length of a day the
    rounded quotient has the ceiling of the exact one, so the integer
    ceiling is what the call returns for instants less than some 285 000
    years apart. *)
Definition ceil_div (x d : Z) : Z := - ((- x) / d).

Definition msPerDay : Z := 1000 * 60 * 60 * 24.

(** ** Projects *)

Definition getNextInspection (s : Store) (projectId : string) (now : Z)
  : option string :=
  let projectReminders :=
    sort (fun a b => Reminder.scheduledFor a - Reminder.scheduledFor b)
      (filter (fun r => String.eqb (Reminder.projectId r) projectId
                        && negb (truthy (Reminder.completed r)))
         (JsMap.values (reminders s))) in
  match projectReminders with
  | first :: _ =>
      let next := Reminder.scheduledFor first in
      let diffDays := ceil_div (next - now) msPerDay in
      if diffDays =? 0 then Some "Today"
      else if diffDays =? 1 then Some "Tomorrow"
      else if 1 <? diffDays then Some (number_to_string diffDays ++ " days")
      else Some "Overdue"
  | [] => None
  end.

(** [clock pid] is the clock reading taken while the row of project [pid] is
    computed. *)
Definition getProjects (s : Store) (clock : string -> Z)
  : list ProjectWithCounts :=
  map (fun project =>
         {| pwc_project := project;
            photoCount :=
              List.length (filter (fun p => String.eqb (Photo.projectId p) (Project.id project))
                        (JsMap.values (photos s)));
            documentCount :=
              List.length (filter (fun d => String.eqb (Document.projectId d) (Project.id project))
                        (JsMap.values (documents s)));
            nextInspection :=
              getNextInspection s (Project.id project) (clock (Project.id project)) |})
      (JsMap.values (projects s)).

Definition getProject (s : Store) (id : string) : option Project.t :=
  JsMap.get (projects s) id.

Definition createProject (s : Store) (project : InsertProject.t)
    (id : string) (now1 now2 : Z) : Store * Project.t :=
  let newProject :=
    {| Project.id := id;
       Project.name := InsertProject.name project;
       Project.description := InsertProject.description project;
       Project.location := InsertProject.location project;
       Project.status := InsertProject.status project;
       Project.type := InsertProject.type project;
       Project.createdAt := now1;
       Project.updatedAt := now2 |} in
  (with_projects s (JsMap.set (projects s) id newProject), newProject).

(** [{ ...project, ...updates, updatedAt: new Date() }]: a key present in
    [updates] wins, every other field is copied. *)
Definition spreadProject (project : Project.t) (updates : PartialProject.t)
    (now : Z) : Project.t :=
  {| Project.id := Project.id project;
     Project.name :=
       match PartialProject.name updates with
       | Some v => v | None => Project.name project end;
     Project.description :=
       match PartialProject.description updates with
       | Some v => v | None => Project.description project end;
     Project.location :=
       match PartialProject.location updates with
       | Some v => v | None => Project.location project end;
     Project.status :=
       match PartialProject.status updates with
       | Some v => Some v | None => Project.status project end;
     Project.type :=
       match PartialProject.type updates with
       | Some v => v | None => Project.type project end;
     Project.createdAt := Project.createdAt project;
     Project.updatedAt := now |}.

Definition updateProject (s : Store) (id : string)
    (updates : PartialProject.t) (now : Z) : Store * option Project.t :=
  match JsMap.get (projects s) id with
  | None => (s, None)
  | Some project =>
      let updatedProject := spreadProject project updates now in
      (with_projects s (JsMap.set (projects s) id updatedProject),
       Some updatedProject)
  end.

Definition deleteProject (s : Store) (id : string) : Store * bool :=
  let (m, existed) := JsMap.delete (projects s) id in
  (with_projects s m, existed).

(** ** Photos *)

Definition getProjectPhotos (s : Store) (projectId : string) : list Photo.t :=
  sort (fun a b => Photo.takenAt b - Photo.takenAt a)
    (filter (fun photo => String.eqb (Photo.projectId photo) projectId)
       (JsMap.values (photos s))).

(** [now1] is read only when the input carries no [takenAt]. *)
Definition createPhoto (s : Store) (photo : InsertPhoto.t)
    (id : string) (now1 now2 : Z) : Store * Photo.t :=
  let newPhoto :=
    {| Photo.id := id;
       Photo.projectId := InsertPhoto.projectId photo;
       Photo.filename := InsertPhoto.filename photo;
       Photo.description := InsertPhoto.description photo;
       Photo.latitude := InsertPhoto.latitude photo;
       Photo.longitude := InsertPhoto.longitude photo;
       Photo.takenAt :=
         match InsertPhoto.takenAt photo with
         | Some t => t | None => now1 end;
       Photo.createdAt := now2 |} in
  (with_photos s (JsMap.set (photos s) id newPhoto), newPhoto).

Definition deletePhoto (s : Store) (id : string) : Store * bool :=
  let (m, existed) := JsMap.delete (photos s) id in
  (with_photos s m, existed).

(** ** Documents *)

Definition getProjectDocuments (s : Store) (projectId : string)
  : list Document.t :=
  sort (fun a b => Document.uploadedAt b - Document.uploadedAt a)
    (filter (fun doc => String.eqb (Document.projectId doc) projectId)
       (JsMap.values (documents s))).

Definition createDocument (s : Store) (document : InsertDocument.t)
    (id : string) (now : Z) : Store * Document.t :=
  let newDocument :=
    {| Document.id := id;
       Document.projectId := InsertDocument.projectId document;
       Document.filename := InsertDocument.filename document;
       Document.originalName := InsertDocument.originalName document;
       Document.type := InsertDocument.type document;
       Document.size := InsertDocument.size document;
       Document.uploadedAt := now |} in
  (with_documents s (JsMap.set (documents s) id newDocument), newDocument).

Definition deleteDocument (s : Store) (id : string) : Store * bool :=
  let (m, existed) := JsMap.delete (documents s) id in
  (with_documents s m, existed).

(** ** Material tests *)

Definition getMaterialTests (s : Store) : list MaterialTest.t :=
  JsMap.values (materialTests s).

Definition getMaterialTestsByCategory (s : Store) (category : string)
  : list MaterialTest.t :=
  filter (fun test => String.eqb (MaterialTest.category test) category)
    (JsMap.values (materialTests s)).

Definition createMaterialTest (s : Store) (test : InsertMaterialTest.t)
    (id : string) (now1 now2 : Z) : Store * MaterialTest.t :=
  let newTest :=
    {| MaterialTest.id := id;
       MaterialTest.name := InsertMaterialTest.name test;
       MaterialTest.category := InsertMaterialTest.category test;
       MaterialTest.specification := InsertMaterialTest.specification test;
       MaterialTest.createdAt := now1;
       MaterialTest.updatedAt := now2 |} in
  (with_materialTests s (JsMap.set (materialTests s) id newTest), newTest).

(** ** Test results *)

Definition getTestResults (s : Store) : list TestResultView :=
  map (fun result =>
         let project := JsMap.get (projects s) (TestResult.projectId result) in
         let test := JsMap.get (materialTests s) (TestResult.materialTestId result) in
         {| trv_result := result;
            trv_projectName :=
              or_default (option_map Project.name project) "Unknown Project";
            trv_testName :=
              or_default (option_map MaterialTest.name test) "Unknown Test" |})
      (JsMap.values (testResults s)).

Definition createTestResult (s : Store) (result : InsertTestResult.t)
    (id : string) (now : Z) : Store * TestResult.t :=
  let newResult :=
    {| TestResult.id := id;
       TestResult.projectId := InsertTestResult.projectId result;
       TestResult.materialTestId := InsertTestResult.materialTestId result;
       TestResult.result := InsertTestResult.result result;
       TestResult.status := InsertTestResult.status result;
       TestResult.testedAt := now |} in
  (with_testResults s (JsMap.set (testResults s) id newResult), newResult).

(** ** Reminders *)

Definition getActiveReminders (s : Store) : list ReminderView :=
  sort (fun a b => Reminder.scheduledFor (rv_reminder a)
                   - Reminder.scheduledFor (rv_reminder b))
    (map (fun reminder =>
            let project := JsMap.get (projects s) (Reminder.projectId reminder) in
            {| rv_reminder := reminder;
               rv_projectName :=
                 or_default (option_map Project.name project) "Unknown Project" |})
       (filter (fun reminder => negb (truthy (Reminder.completed reminder)))
          (JsMap.values (reminders s)))).

Definition createReminder (s : Store) (reminder : InsertReminder.t)
    (id : string) (now : Z) : Store * Reminder.t :=
  let newReminder :=
    {| Reminder.id := id;
       Reminder.projectId := InsertReminder.projectId reminder;
       Reminder.title := InsertReminder.title reminder;
       Reminder.type := InsertReminder.type reminder;
       Reminder.scheduledFor := InsertReminder.scheduledFor reminder;
       Reminder.completed := InsertReminder.completed reminder;
       Reminder.createdAt := now |} in
  (with_reminders s (JsMap.set (reminders s) id newReminder), newReminder).

(** [{ ...reminder, completed: true }] *)
Definition completeReminder (reminder : Reminder.t) : Reminder.t :=
  {| Reminder.id := Reminder.id reminder;
     Reminder.projectId := Reminder.projectId reminder;
     Reminder.title := Reminder.title reminder;
     Reminder.type := Reminder.type reminder;
     Reminder.scheduledFor := Reminder.scheduledFor reminder;
     Reminder.completed := Some true;
     Reminder.createdAt := Reminder.createdAt reminder |}.

Definition markReminderComplete (s : Store) (id : string) : Store * bool :=
  match JsMap.get (reminders s) id with
  | None => (s, false)
  | Some reminder =>
      (with_reminders s (JsMap.set (reminders s) id (completeReminder reminder)),
       true)
  end.

(** ** Calendar events

    [getMonth] and [getFullYear] are the calendar fields of a timestamp in the
    server's time zone, as the runtime's [Date] computes them.  A month or
    year that is [NaN] (an unparsable query parameter) equals no calendar
    field; any integer outside the fields' ranges behaves the same way. *)

Section Calendar.
Variables getMonth getFullYear : Z -> Z.

Definition getCalendarEvents (s : Store) (month year : option Z)
  : list CalendarEventView :=
  let events := JsMap.values (calendarEvents s) in
  let events :=
    match month, year with
    | Some m, Some y =>
        filter (fun event =>
                  let eventDate := CalendarEvent.date event in
                  (getMonth eventDate =? m) && (getFullYear eventDate =? y))
          events
    | _, _ => events
    end in
  map (fun event =>
         let project := JsMap.get (projects s) (CalendarEvent.projectId event) in
         {| cev_event := event;
            cev_projectName :=
              or_default (option_map Project.name project) "Unknown Project" |})
      events.

End Calendar.

Definition createCalendarEvent (s : Store) (event : InsertCalendarEvent.t)
    (id : string) (now : Z) : Store * CalendarEvent.t :=
  let newEvent :=
    {| CalendarEvent.id := id;
       CalendarEvent.projectId := InsertCalendarEvent.projectId event;
       CalendarEvent.title := InsertCalendarEvent.title event;
       CalendarEvent.description := InsertCalendarEvent.description event;
       CalendarEvent.date := InsertCalendarEvent.date event;
       CalendarEvent.type := InsertCalendarEvent.type event;
       CalendarEvent.createdAt := now |} in
  (with_calendarEvents s (JsMap.set (calendarEvents s) id newEvent), newEvent).

(** ** Stats *)

Definition getProjectStats (s : Store) : ProjectStats :=
  let projects := JsMap.values (projects s) in
  let photos := JsMap.values (photos s) in
  let documents := JsMap.values (documents s) in
  let reminders := JsMap.values (reminders s) in
  {| activeProjects :=
       List.length
         (filter (fun p =>
                    match Project.status p with
                    | Some st => String.eqb st "active"
                    | None => false
                    end) projects);
     photosCount := List.length photos;
     pendingInspections :=
       List.length (filter (fun r => negb (truthy (Reminder.completed r))) reminders);
     documentsCount := List.length documents |}.

(** ** The constructor's sample data

    [clk n] is the [n]-th clock reading of [initializeData], in program
    order; the three fixed dates are UTC midnights.  The inch marks and the
    plus-minus signs of the specification texts are transliterated. *)

Definition initializeData (clk : nat -> Z) : Store :=
  let project1 :=
    Project.mk "proj-1" "Downtown Office Complex"
      (Some "15-story commercial building with underground parking structure")
      (Some "Downtown LA") (Some "active") "building"
      1730419200000 (clk 0%nat) in
  let project2 :=
    Project.mk "proj-2" "Highway Bridge Inspection"
      (Some "Structural integrity assessment of 200ft span bridge")
      (Some "I-405 North") (Some "review") "infrastructure"
      1728950400000 (clk 1%nat) in
  let project3 :=
    Project.mk "proj-3" "Residential Foundation"
      (Some "Single-family home foundation inspection and documentation")
      (Some "Beverly Hills") (Some "complete") "residential"
      1727740800000 (clk 2%nat) in
  let concreteTests :=
    [ MaterialTest.mk "test-1" "Compressive Strength" "concrete"
        "Min 4000 PSI @ 28 days" (clk 3%nat) (clk 4%nat);
      MaterialTest.mk "test-2" "Slump Test" "concrete"
        "4'' +/- 1'' per ACI 318" (clk 5%nat) (clk 6%nat) ] in
  let soilTests :=
    [ MaterialTest.mk "test-3" "Proctor Density" "soil"
        "95% max density, +/-2% moisture" (clk 7%nat) (clk 8%nat) ] in
  let reminder1 :=
    Reminder.mk "rem-1" "proj-1" "599 Inspection Due" "599"
      (clk 9%nat + 24 * 60 * 60 * 1000) (Some false) (clk 10%nat) in
  {| projects :=
       JsMap.set (JsMap.set (JsMap.set JsMap.empty "proj-1" project1)
                    "proj-2" project2) "proj-3" project3;
     photos := JsMap.empty;
     documents := JsMap.empty;
     materialTests :=
       fold_left (fun m test => JsMap.set m (MaterialTest.id test) test)
         (concreteTests ++ soilTests)%list JsMap.empty;
     testResults := JsMap.empty;
     reminders := JsMap.set JsMap.empty "rem-1" reminder1;
     calendarEvents := JsMap.empty |}.

(** ** The storage interface as a transition system

    One constructor per method of [IStorage], carrying the method's
    arguments together with the identifier and the clock readings the call
    draws.  [exec] is the effect of a call on the store; the read methods
    leave it unchanged. *)

Inductive Op : Type :=
| GetProjects (clock : string -> Z)
| GetProject (id : string)
| CreateProject (project : InsertProject.t) (id : string) (now1 now2 : Z)
| UpdateProject (id : string) (updates : PartialProject.t) (now : Z)
| DeleteProject (id : string)
| GetProjectPhotos (projectId : string)
| CreatePhoto (photo : InsertPhoto.t) (id : string) (now1 now2 : Z)
| DeletePhoto (id : string)
| GetProjectDocuments (projectId : string)
| CreateDocument (document : InsertDocument.t) (id : string) (now : Z)
| DeleteDocument (id : string)
| GetMaterialTests
| GetMaterialTestsByCategory (category : string)
| CreateMaterialTest (test : InsertMaterialTest.t) (id : string) (now1 now2 : Z)
| GetTestResults
| CreateTestResult (result : InsertTestResult.t) (id : string) (now : Z)
| GetActiveReminders
| CreateReminder (reminder : InsertReminder.t) (id : string) (now : Z)
| MarkReminderComplete (id : string)
| GetCalendarEvents (month year : option Z)
| CreateCalendarEvent (event : InsertCalendarEvent.t) (id : string) (now : Z)
| GetProjectStats.

Definition exec (s : Store) (op : Op) : Store :=
  match op with
  | CreateProject project id now1 now2 => fst (createProject s project id now1 now2)
  | UpdateProject id updates now => fst (updateProject s id updates now)
  | DeleteProject id => fst (deleteProject s id)
  | CreatePhoto photo id now1 now2 => fst (createPhoto s photo id now1 now2)
  | DeletePhoto id => fst (deletePhoto s id)
  | CreateDocument document id now => fst (createDocument s document id now)
  | DeleteDocument id => fst (deleteDocument s id)
  | CreateMaterialTest test id now1 now2 =>
      fst (createMaterialTest s test id now1 now2)
  | CreateTestResult result id now => fst (createTestResult s result id now)
  | CreateReminder reminder id now => fst (createReminder s reminder id now)
  | MarkReminderComplete id => fst (markReminderComplete s id)
  | CreateCalendarEvent event id now => fst (createCalendarEvent s event id now)
  | GetProjects _ | GetProject _ | GetProjectPhotos _ | GetProjectDocuments _
  | GetMaterialTests | GetMaterialTestsByCategory _ | GetTestResults
  | GetActiveReminders | GetCalendarEvents _ _ | GetProjectStats => s
  end.

(** [randomUUID()] returns an identifier that is not in use: the key a
    create call draws is absent from the map it writes to. *)
Definition fresh (s : Store) (op : Op) : bool :=
  match op with
  | CreateProject _ id _ _ => negb (JsMap.has (projects s) id)
  | CreatePhoto _ id _ _ => negb (JsMap.has (photos s) id)
  | CreateDocument _ id _ => negb (JsMap.has (documents s) id)
  | CreateMaterialTest _ id _ _ => negb (JsMap.has (materialTests s) id)
  | CreateTestResult _ id _ => negb (JsMap.has (testResults s) id)
  | CreateReminder _ id _ => negb (JsMap.has (reminders s) id)
  | CreateCalendarEvent _ id _ => negb (JsMap.has (calendarEvents s) id)
  | _ => true
  end.

Fixpoint run (s : Store) (ops : list Op) : Store :=
  match ops with
  | [] => s
  | op :: ops' => run (exec s op) ops'
  end.

Fixpoint fresh_run (s : Store) (ops : list Op) : bool :=
  match ops with
  | [] => true
  | op :: ops' => fresh s op && fresh_run (exec s op) ops'
  end.

(** Every map of the store holds each key once. *)
Definition store_wf (s : Store) : Prop :=
  JsMap.wf (projects s) /\ JsMap.wf (photos s) /\ JsMap.wf (documents s) /\
  JsMap.wf (materialTests s) /\ JsMap.wf (testResults s) /\
  JsMap.wf (reminders s) /\ JsMap.wf (calendarEvents s).

(** ** Sample stores used by the concrete checks *)

(** The store as the constructor leaves it, every clock reading being the
    same instant. *)
Definition store0 : Store := initializeData (fun _ => 1700000000000).

(** A photo input that names a project the store does not hold. *)
Definition orphanPhoto : InsertPhoto.t :=
  InsertPhoto.mk "nonexistent" "site.jpg" (Some "") None None None.

(** The sample store after its one reminder has been completed, and a
    sequence of calls that creates a second, open reminder, completes the
    first one again, deletes its project and completes the second. *)
Definition store1 : Store := fst (markReminderComplete store0 "rem-1").

Definition sampleOps : list Op :=
  [ CreateReminder
      (InsertReminder.mk "proj-1" "SW3P walk" "sw3p" 1700000500000 None)
      "rem-2" 1700000000005;
    MarkReminderComplete "rem-1";
    DeleteProject "proj-1";
    GetActiveReminders;
    MarkReminderComplete "rem-2" ].

(** The update object [{ description: "x" }]. *)
Definition descriptionX : PartialProject.t :=
  PartialProject.mk None (Some (Some "x")) None None None.

(** The sample store extended with a project whose name is the empty string
    and with a test result, an open reminder and a calendar event that
    reference it. *)
Definition storeE : Store :=
  let s := fst (createProject store0
                  (InsertProject.mk "" None None (Some "active") "building")
                  "proj-4" 1700000000010 1700000000010) in
  let s := fst (createTestResult s
                  (InsertTestResult.mk "proj-4" "test-1" "4200 PSI" "pass")
                  "res-1" 1700000000020) in
  let s := fst (createReminder s
                  (InsertReminder.mk "proj-4" "Cylinder break" "material_test"
                     1700000900000 (Some false))
                  "rem-4" 1700000000030) in
  fst (createCalendarEvent s
         (InsertCalendarEvent.mk "proj-4" "Site visit" None 1700001000000 "visit")
         "evt-1" 1700000000040).

(** The display name the joins give to a looked-up name: the name itself
    unless the entity is missing or the name is empty. *)
Definition displayName (found : option string) (placeholder : string) : string :=
  match found with
  | Some n => if String.eqb n "" then placeholder else n
  | None => placeholder
  end.

(** ** Counting and batches of create calls *)

Fixpoint countIf {A : Type} (f : A -> bool) (l : list A) : nat :=
  match l with
  | [] => O
  | x :: l' => ((if f x then 1 else 0) + countIf f l')%nat
  end.

Definition statusIs (wanted : string) (st : option string) : bool :=
  match st with
  | Some v => String.eqb v wanted
  | None => false
  end.

(** A create call with what it draws: the input, the identifier and the two
    clock readings. *)
Definition ProjectCall : Type := InsertProject.t * string * Z * Z.
Definition PhotoCall : Type := InsertPhoto.t * string * Z * Z.

Definition projectCallInput (c : ProjectCall) : InsertProject.t := fst (fst (fst c)).
Definition projectCallId (c : ProjectCall) : string := snd (fst (fst c)).
Definition photoCallId (c : PhotoCall) : string := snd (fst (fst c)).

Definition createProjects (s : Store) (calls : list ProjectCall) : Store :=
  fold_left (fun s c =>
               fst (createProject s (projectCallInput c) (projectCallId c)
                      (snd (fst c)) (snd c)))
    calls s.

Definition createPhotos (s : Store) (calls : list PhotoCall) : Store :=
  fold_left (fun s c =>
               fst (createPhoto s (fst (fst (fst c))) (photoCallId c)
                      (snd (fst c)) (snd c)))
    calls s.

(** Two active projects and a complete one, then five photos across them. *)
Definition sampleProjectCalls : list ProjectCall :=
  [ (InsertProject.mk "Pier 4" None None (Some "active") "infrastructure",
     "p-a", 1700000000100, 1700000000100);
    (InsertProject.mk "Annex" None None (Some "complete") "building",
     "p-b", 1700000000200, 1700000000201);
    (InsertProject.mk "Lot 9" None None (Some "active") "residential",
     "p-c", 1700000000300, 1700000000300) ].

Definition samplePhotoCalls : list PhotoCall :=
  [ (InsertPhoto.mk "p-a" "a1.jpg" None None None None, "ph-1", 1700000001000, 1700000001000);
    (InsertPhoto.mk "p-a" "a2.jpg" None None None None, "ph-2", 1700000002000, 1700000002000);
    (InsertPhoto.mk "p-b" "b1.jpg" None None None None, "ph-3", 1700000003000, 1700000003000);
    (InsertPhoto.mk "p-c" "c1.jpg" None None None None, "ph-4", 1700000004000, 1700000004000);
    (InsertPhoto.mk "p-c" "c2.jpg" None None None None, "ph-5", 1700000005000, 1700000005000) ].

(** The sample store with one more open reminder, for project [proj-2], due
    at [t]. *)
Definition storeDue (t : Z) : Store :=
  fst (createReminder store0
         (InsertReminder.mk "proj-2" "Bridge deck walk" "599" t (Some false))
         "rem-2" 1700000000000).

(** 2023-11-14 22:13:20 UTC, and the length of an hour. *)
Definition sampleNow : Z := 1700000000000.
Definition msPerHour : Z := 1000 * 60 * 60.

(** ** Identifier discipline

    Every entity is stored under its own [id]. *)

Definition keyed {V : Type} (idOf : V -> string) (m : JsMap.t V) : Prop :=
  Forall (fun e => idOf (snd e) = fst e) m.

Definition store_keyed (s : Store) : Prop :=
  keyed Project.id (projects s) /\ keyed Photo.id (photos s) /\
  keyed Document.id (documents s) /\ keyed MaterialTest.id (materialTests s) /\
  keyed TestResult.id (testResults s) /\ keyed Reminder.id (reminders s) /\
  keyed CalendarEvent.id (calendarEvents s).

(** A sample store with two photos and a document of [proj-1]. *)
Definition storeP : Store :=
  let s := fst (createPhoto store0
                  (InsertPhoto.mk "proj-1" "north.jpg" None None None (Some 1700000000500))
                  "ph-1" 1700000000600 1700000000600) in
  let s := fst (createPhoto s
                  (InsertPhoto.mk "proj-1" "south.jpg" None None None None)
                  "ph-2" 1700000000700 1700000000700) in
  fst (createDocument s
         (InsertDocument.mk "proj-1" "1700-plan.pdf" "plan.pdf" "drawing" 52311)
         "doc-1" 1700000000800).

(** The update object [{ name: "Tower A", status: "review" }]. *)
Definition renameTowerA : PartialProject.t :=
  PartialProject.mk (Some "Tower A") None None (Some "review") None.

(** ** Route handlers ([server/routes.ts])

    A handler answers with a status code and a JSON body.  Each handler wraps
    its storage call in [try]/[catch] and answers 500 from the [catch]; the
    calls of [MemStorage] modelled here raise nothing, so that branch is not
    taken and is left out.  A path parameter is a string; an absent query
    parameter is [None]. *)

Inductive Body : Type :=
| NoBody
| Message (message : string)
| ProjectJson (project : Project.t)
| ProjectsJson (rows : list ProjectWithCounts)
| PhotosJson (rows : list Photo.t)
| DocumentsJson (rows : list Document.t)
| MaterialTestsJson (rows : list MaterialTest.t)
| TestResultsJson (rows : list TestResultView)
| RemindersJson (rows : list ReminderView)
| StatsJson (stats : ProjectStats).

Record Response : Type := {
  res_status : Z;
  res_body : Body
}.

(** [res.json(x)] answers 200. *)
Definition json (b : Body) : Response := {| res_status := 200; res_body := b |}.

Definition notFound (message : string) : Response :=
  {| res_status := 404; res_body := Message message |}.

Definition noContent : Response := {| res_status := 204; res_body := NoBody |}.

(** [GET /api/projects/:id] *)
Definition routeGetProject (s : Store) (id : string) : Response :=
  match getProject s id with
  | None => notFound "Project not found"
  | Some project => json (ProjectJson project)
  end.

(** [DELETE /api/projects/:id] *)
Definition routeDeleteProject (s : Store) (id : string) : Store * Response :=
  let (s', deleted) := deleteProject s id in
  if negb deleted then (s', notFound "Project not found") else (s', noContent).

(** [GET /api/projects/:projectId/photos] *)
Definition routeGetProjectPhotos (s : Store) (projectId : string) : Response :=
  json (PhotosJson (getProjectPhotos s projectId)).

(** [DELETE /api/photos/:id] *)
Definition routeDeletePhoto (s : Store) (id : string) : Store * Response :=
  let (s', deleted) := deletePhoto s id in
  if negb deleted then (s', notFound "Photo not found") else (s', noContent).

(** [GET /api/projects/:projectId/documents] *)
Definition routeGetProjectDocuments (s : Store) (projectId : string) : Response :=
  json (DocumentsJson (getProjectDocuments s projectId)).

(** [DELETE /api/documents/:id] *)
Definition routeDeleteDocument (s : Store) (id : string) : Store * Response :=
  let (s', deleted) := deleteDocument s id in
  if negb deleted then (s', notFound "Document not found") else (s', noContent).

(** [GET /api/material-tests]: the [category] query parameter selects the
    filtered list when it is a non-empty string. *)
Definition routeGetMaterialTests (s : Store) (category : option string) : Response :=
  let tests :=
    match category with
    | Some EmptyString | None => getMaterialTests s
    | Some c => getMaterialTestsByCategory s c
    end in
  json (MaterialTestsJson tests).

(** [GET /api/reminders] *)
Definition routeGetReminders (s : Store) : Response :=
  json (RemindersJson (getActiveReminders s)).

(** [PATCH /api/reminders/:id/complete] *)
Definition routeCompleteReminder (s : Store) (id : string) : Store * Response :=
  let (s', completed) := markReminderComplete s id in
  if negb completed then (s', notFound "Reminder not found") else (s', noContent).

(** [GET /api/stats] *)
Definition routeGetStats (s : Store) : Response :=
  json (StatsJson (getProjectStats s)).

(** * Properties *)

(** ** Facts about insertion-ordered maps *)

Section JsMapFacts.
Context {V : Type}.
Implicit Types (m : JsMap.t V) (k : string) (v : V).

Lemma get_set_eq m k v : JsMap.get (JsMap.set m k v) k = Some v.
Proof.
  induction m as [|[k' v'] m IH]; simpl.
  - now rewrite String.eqb_refl.
  - destruct (String.eqb k' k) eqn:E; simpl; rewrite E; auto.
Qed.

Lemma get_set_ne m k k' v :
  k <> k' -> JsMap.get (JsMap.set m k v) k' = JsMap.get m k'.
Proof.
  intros Hne. induction m as [|[k0 v0] m IH]; simpl.
  - destruct (String.eqb_spec k k'); congruence.
  - destruct (String.eqb_spec k0 k) as [->|Hk]; simpl.
    + destruct (String.eqb_spec k k'); congruence.
    + now rewrite IH.
Qed.

Lemma get_remove_eq m k : JsMap.get (JsMap.remove m k) k = None.
Proof.
  unfold JsMap.remove. induction m as [|[k' v'] m IH]; simpl; auto.
  destruct (String.eqb k' k) eqn:E; simpl; auto. now rewrite E.
Qed.

Lemma get_remove_ne m k k' :
  k <> k' -> JsMap.get (JsMap.remove m k) k' = JsMap.get m k'.
Proof.
  intros Hne. unfold JsMap.remove.
  induction m as [|[k0 v0] m IH]; simpl; auto.
  destruct (String.eqb_spec k0 k) as [->|Hk]; simpl.
  - destruct (String.eqb_spec k k'); congruence.
  - now rewrite IH.
Qed.

Lemma get_None_not_key m k : JsMap.get m k = None <-> ~ In k (JsMap.keys m).
Proof.
  induction m as [|[k' v'] m IH]; simpl.
  - tauto.
  - destruct (String.eqb_spec k' k) as [->|Hk].
    + split; [discriminate | tauto].
    + rewrite IH. tauto.
Qed.

Lemma has_false_get m k : JsMap.has m k = false <-> JsMap.get m k = None.
Proof. unfold JsMap.has. destruct (JsMap.get m k); split; congruence. Qed.

(** Writing a new key appends at the end of the enumeration. *)
Lemma set_fresh m k v :
  JsMap.get m k = None -> JsMap.set m k v = (m ++ [(k, v)])%list.
Proof.
  induction m as [|[k' v'] m IH]; simpl; auto.
  destruct (String.eqb k' k); [discriminate|].
  intros H. now rewrite IH.
Qed.

Lemma values_set_fresh m k v :
  JsMap.get m k = None ->
  JsMap.values (JsMap.set m k v) = (JsMap.values m ++ [v])%list.
Proof.
  intros H. rewrite set_fresh by assumption.
  unfold JsMap.values. now rewrite map_app.
Qed.

(** Writing never changes the key enumeration of a present key. *)
Lemma keys_set_present m k v :
  JsMap.get m k <> None -> JsMap.keys (JsMap.set m k v) = JsMap.keys m.
Proof.
  induction m as [|[k' v'] m IH]; simpl; [congruence|].
  destruct (String.eqb k' k); simpl; auto.
  intros H. now rewrite IH.
Qed.

Lemma wf_set m k v : JsMap.wf m -> JsMap.wf (JsMap.set m k v).
Proof.
  unfold JsMap.wf. intros Hwf.
  destruct (JsMap.get m k) eqn:E.
  - rewrite keys_set_present by congruence. assumption.
  - rewrite set_fresh by assumption. unfold JsMap.keys.
    rewrite map_app. simpl.
    apply NoDup_app; [assumption | repeat constructor; simpl; tauto |].
    intros x Hx [<-|[]]. now apply get_None_not_key in E.
Qed.

Lemma wf_remove m k : JsMap.wf m -> JsMap.wf (JsMap.remove m k).
Proof.
  unfold JsMap.wf, JsMap.remove, JsMap.keys.
  induction m as [|[k' v'] m IH]; simpl; auto.
  intros Hwf. inversion Hwf as [|? ? Hnin Hnd]; subst.
  destruct (negb (String.eqb k' k)); simpl; auto.
  constructor; auto.
  intros Hin. apply Hnin. apply in_map_iff in Hin.
  destruct Hin as [e [He Hf]]. apply filter_In in Hf.
  apply in_map_iff. exists e. tauto.
Qed.

(** In a well-formed map, enumeration and lookup agree. *)
Lemma In_get m k v : JsMap.wf m -> In (k, v) m -> JsMap.get m k = Some v.
Proof.
  unfold JsMap.wf, JsMap.keys.
  induction m as [|[k' v'] m IH]; simpl; [tauto|].
  intros Hwf [Heq|Hin].
  - inversion Heq; subst. now rewrite String.eqb_refl.
  - inversion Hwf as [|? ? Hnin Hnd]; subst.
    destruct (String.eqb_spec k' k) as [->|Hk]; auto.
    exfalso. apply Hnin. apply in_map_iff. now exists (k, v).
Qed.

Lemma get_In m k v : JsMap.get m k = Some v -> In (k, v) m.
Proof.
  induction m as [|[k' v'] m IH]; simpl; [discriminate|].
  destruct (String.eqb_spec k' k) as [->|Hk].
  - intros [= ->]. now left.
  - auto.
Qed.

Lemma get_In_values m k v : JsMap.get m k = Some v -> In v (JsMap.values m).
Proof.
  intros H. apply get_In in H. unfold JsMap.values.
  apply in_map_iff. now exists (k, v).
Qed.

End JsMapFacts.

(** ** Facts about the sort *)

Section SortFacts.
Context {A : Type}.
Variable cmp : A -> A -> Z.

Lemma insert_perm x l : Permutation (insert cmp x l) (x :: l).
Proof.
  induction l as [|y l IH]; simpl; auto.
  destruct (cmp x y <=? 0); auto.
  rewrite IH. apply perm_swap.
Qed.

Lemma sort_perm l : Permutation (sort cmp l) l.
Proof.
  induction l as [|x l IH]; simpl; auto.
  rewrite insert_perm. now constructor.
Qed.

Lemma sort_In x l : In x (sort cmp l) <-> In x l.
Proof.
  split; apply Permutation_in; [|symmetry]; apply sort_perm.
Qed.

Lemma sort_length l : List.length (sort cmp l) = List.length l.
Proof. apply Permutation_length, sort_perm. Qed.

(** The comparators of the store subtract a numeric key, in one direction or
    the other; such a comparator is a total preorder. *)
Hypothesis cmp_total : forall a b, cmp a b <= 0 \/ cmp b a <= 0.
Hypothesis cmp_trans : forall a b c, cmp a b <= 0 -> cmp b c <= 0 -> cmp a c <= 0.

Lemma insert_sorted x l :
  StronglySorted (before cmp) l -> StronglySorted (before cmp) (insert cmp x l).
Proof.
  induction 1 as [|y l Hs IH Hall]; simpl.
  - repeat constructor.
  - destruct (Z.leb_spec (cmp x y) 0) as [Hle|Hgt].
    + constructor; [now constructor|].
      constructor; [exact Hle|].
      eapply Forall_impl; [|exact Hall].
      intros b Hb. unfold before in *. eapply cmp_trans; eauto.
    + constructor; [exact IH|].
      assert (Hyx : cmp y x <= 0) by (destruct (cmp_total x y); [lia|assumption]).
      eapply Permutation_Forall; [symmetry; apply insert_perm|].
      now constructor.
Qed.

Lemma sort_sorted l : StronglySorted (before cmp) (sort cmp l).
Proof.
  induction l as [|x l IH]; simpl; [constructor|].
  now apply insert_sorted.
Qed.

(** The first element of the sorted list comes before every element of the
    input. *)
Lemma sort_head_least x l' l :
  sort cmp l = x :: l' -> In x l /\ forall y, In y l -> cmp x y <= 0.
Proof.
  intros E. split.
  - apply sort_In. rewrite E. now left.
  - intros y Hy. apply sort_In in Hy. rewrite E in Hy.
    pose proof (sort_sorted l) as Hs. rewrite E in Hs.
    inversion Hs as [|? ? _ Hall]; subst.
    destruct Hy as [<-|Hy].
    + destruct (cmp_total x x); assumption.
    + rewrite Forall_forall in Hall. now apply Hall.
Qed.

End SortFacts.

(** ** Project deletion *)

Lemma deleteProject_store s id :
  deleteProject s id =
  (with_projects s (JsMap.remove (projects s) id), JsMap.has (projects s) id).
Proof. reflexivity. Qed.

(** C1, as stated, fails on the constructor's own sample data: after
    [deleteProject "proj-1"] the project is gone, yet the list of active
    reminders still returns the reminder [rem-1], which references
    [proj-1]. *)
Lemma deleteProject_cascade_counterexample :
  let s' := fst (deleteProject store0 "proj-1") in
  getProject store0 "proj-1" <> None /\
  getProject s' "proj-1" = None /\
  exists v, In v (getActiveReminders s') /\
            Reminder.id (rv_reminder v) = "rem-1" /\
            Reminder.projectId (rv_reminder v) = "proj-1".
Proof.
  cbv zeta. split; [discriminate|]. split; [reflexivity|].
  eexists. split; [left; reflexivity|]. split; reflexivity.
Qed.

(** C1 (amended): [deleteProject] removes the project and nothing else.  For
    a project present in the store it answers [true]; afterwards
    [getProject] finds nothing under the identifier, every other project is
    still found, and the maps of photos, documents, test results, reminders
    and calendar events are the same as before, so the per-project lists
    return what they returned before the deletion. *)
Theorem deleteProject_removes_only_project s id P :
  getProject s id = Some P ->
  let s' := fst (deleteProject s id) in
  snd (deleteProject s id) = true /\
  getProject s' id = None /\
  (forall id', id' <> id -> getProject s' id' = getProject s id') /\
  photos s' = photos s /\ documents s' = documents s /\
  testResults s' = testResults s /\ reminders s' = reminders s /\
  calendarEvents s' = calendarEvents s /\
  (forall pid, getProjectPhotos s' pid = getProjectPhotos s pid) /\
  (forall pid, getProjectDocuments s' pid = getProjectDocuments s pid).
Proof.
  intros HP. rewrite deleteProject_store. cbv zeta. simpl.
  unfold getProject in *. simpl.
  repeat split; auto.
  - unfold JsMap.has. now rewrite HP.
  - apply get_remove_eq.
  - intros id' Hne. apply get_remove_ne. congruence.
Qed.

Lemma deleteProject_removes_only_project_witness :
  getProject store0 "proj-2" <> None /\
  getProject (fst (deleteProject store0 "proj-2")) "proj-2" = None /\
  reminders (fst (deleteProject store0 "proj-2")) = reminders store0.
Proof.
  split; [discriminate|].
  destruct (deleteProject_removes_only_project store0 "proj-2" _ eq_refl)
    as (_ & Hget & _ & _ & _ & _ & Hrem & _).
  split; assumption.
Defined.

(** ** Photo creation *)

(** C3, as stated, fails: on the sample store, which holds no project
    ["nonexistent"], [createPhoto] returns a photo record rather than an
    error, and the photo store has grown by that record. *)
Lemma createPhoto_orphan_counterexample :
  let r := createPhoto store0 orphanPhoto "photo-1" 1700000000001 1700000000002 in
  getProject store0 (InsertPhoto.projectId orphanPhoto) = None /\
  photos store0 = JsMap.empty /\
  JsMap.get (photos (fst r)) "photo-1" = Some (snd r) /\
  Photo.projectId (snd r) = "nonexistent" /\
  getProjectPhotos (fst r) "nonexistent" = [snd r].
Proof. cbv zeta. repeat split; reflexivity. Qed.

(** C3 (amended): [createPhoto] makes no referential check.  For every photo
    input, whether or not its [projectId] identifies a project, the call
    returns the new record: the input's [projectId], [filename],
    [description], [latitude] and [longitude], the drawn identifier,
    [takenAt] as given or else the clock reading, and [createdAt] the clock
    reading.  It stores the record under the identifier and the record is in
    the photo list of its project; the other photos and all other maps are
    untouched, and with a fresh identifier the record is appended to the
    enumeration. *)
Theorem createPhoto_always_persists s photo id now1 now2 :
  let s' := fst (createPhoto s photo id now1 now2) in
  let p := snd (createPhoto s photo id now1 now2) in
  JsMap.get (photos s') id = Some p /\
  p = Photo.mk id (InsertPhoto.projectId photo) (InsertPhoto.filename photo)
        (InsertPhoto.description photo) (InsertPhoto.latitude photo)
        (InsertPhoto.longitude photo)
        (match InsertPhoto.takenAt photo with
         | Some t => t
         | None => now1
         end)
        now2 /\
  Photo.id p = id /\
  Photo.projectId p = InsertPhoto.projectId photo /\
  In p (getProjectPhotos s' (InsertPhoto.projectId photo)) /\
  (forall id', id' <> id -> JsMap.get (photos s') id' = JsMap.get (photos s) id') /\
  (JsMap.get (photos s) id = None ->
   JsMap.values (photos s') = (JsMap.values (photos s) ++ [p])%list) /\
  projects s' = projects s /\
  documents s' = documents s /\
  materialTests s' = materialTests s /\
  testResults s' = testResults s /\
  reminders s' = reminders s /\
  calendarEvents s' = calendarEvents s.
Proof.
  cbv zeta. unfold createPhoto. simpl.
  split; [apply get_set_eq|]. split; [reflexivity|].
  split; [reflexivity|]. split; [reflexivity|].
  split.
  - unfold getProjectPhotos. apply sort_In. apply filter_In. simpl. split.
    + eapply get_In_values. apply get_set_eq.
    + apply String.eqb_refl.
  - split; [|split; [|repeat split]].
    + intros id' Hne. apply get_set_ne. congruence.
    + intros Hfresh. now apply values_set_fresh.
Qed.

Lemma createPhoto_always_persists_witness :
  JsMap.get (photos store0) "photo-1" = None /\
  JsMap.values
    (photos (fst (createPhoto store0 orphanPhoto "photo-1" 1700000000001 1700000000002)))
  = (JsMap.values (photos store0)
       ++ [snd (createPhoto store0 orphanPhoto "photo-1" 1700000000001 1700000000002)])%list /\
  snd (createPhoto store0 orphanPhoto "photo-1" 1700000000001 1700000000002)
  = Photo.mk "photo-1" "nonexistent" "site.jpg" (Some "") None None
      1700000000001 1700000000002 /\
  reminders (fst (createPhoto store0 orphanPhoto "photo-1" 1700000000001 1700000000002))
  = reminders store0.
Proof.
  split; [reflexivity|].
  destruct (createPhoto_always_persists store0 orphanPhoto "photo-1"
              1700000000001 1700000000002)
    as (_ & Hrec & _ & _ & _ & _ & Happ & _ & _ & _ & _ & Hrem & _).
  split; [apply Happ; reflexivity|]. split; [exact Hrec | exact Hrem].
Defined.

(** ** Reminder completion *)

(** A reminder under key [id] whose [completed] field is [true]. *)
Lemma exec_keeps_completed s op id r :
  JsMap.get (reminders s) id = Some r ->
  Reminder.completed r = Some true ->
  fresh s op = true ->
  exists r', JsMap.get (reminders (exec s op)) id = Some r' /\
             Reminder.completed r' = Some true.
Proof.
  intros Hget Hc Hfresh.
  destruct op; simpl; try (exists r; split; assumption).
  - unfold updateProject. destruct (JsMap.get (projects s) id0); simpl; eauto.
  - simpl in Hfresh. apply negb_true_iff, has_false_get in Hfresh.
    exists r. split; [|assumption].
    rewrite get_set_ne; [assumption|congruence].
  - unfold markReminderComplete.
    destruct (JsMap.get (reminders s) id0) as [r0|] eqn:E; simpl; eauto.
    destruct (String.eqb_spec id0 id) as [->|Hne].
    + rewrite get_set_eq. eauto.
    + rewrite get_set_ne by assumption. eauto.
Qed.

Lemma run_keeps_completed ops : forall s id r,
  JsMap.get (reminders s) id = Some r ->
  Reminder.completed r = Some true ->
  fresh_run s ops = true ->
  exists r', JsMap.get (reminders (run s ops)) id = Some r' /\
             Reminder.completed r' = Some true.
Proof.
  induction ops as [|op ops IH]; simpl; intros s id r Hget Hc Hfresh.
  - eauto.
  - apply andb_true_iff in Hfresh. destruct Hfresh as [Hop Hrest].
    destruct (exec_keeps_completed s op id r Hget Hc Hop) as (r1 & Hget1 & Hc1).
    eapply IH; eauto.
Qed.

(** C4: completing a reminder is idempotent and monotonic.  For an
    identifier present in the store, [markReminderComplete] answers [true]
    and leaves the reminder with [completed = true] and every other field as
    it was; a second call answers [true] again and leaves the same record.
    Once [completed] is [true] it stays [true] under every sequence of calls
    of the storage interface (identifiers drawn by the create calls being
    fresh).  For an identifier absent from the store the call answers [false]
    and returns the store unchanged. *)
Theorem markReminderComplete_idempotent_monotonic s id :
  (forall r, JsMap.get (reminders s) id = Some r ->
     let s1 := fst (markReminderComplete s id) in
     let s2 := fst (markReminderComplete s1 id) in
     snd (markReminderComplete s id) = true /\
     JsMap.get (reminders s1) id = Some (completeReminder r) /\
     snd (markReminderComplete s1 id) = true /\
     JsMap.get (reminders s2) id = Some (completeReminder r) /\
     Reminder.completed (completeReminder r) = Some true) /\
  (forall r ops,
     JsMap.get (reminders s) id = Some r ->
     Reminder.completed r = Some true ->
     fresh_run s ops = true ->
     exists r', JsMap.get (reminders (run s ops)) id = Some r' /\
                Reminder.completed r' = Some true) /\
  (JsMap.get (reminders s) id = None ->
   markReminderComplete s id = (s, false)).
Proof.
  split; [|split].
  - intros r Hget. cbv zeta.
    assert (H1 : markReminderComplete s id =
                 (with_reminders s (JsMap.set (reminders s) id (completeReminder r)), true)).
    { unfold markReminderComplete. now rewrite Hget. }
    rewrite H1. simpl.
    unfold markReminderComplete at 1 2. simpl.
    rewrite get_set_eq. simpl. rewrite !get_set_eq. auto.
  - intros r ops. apply run_keeps_completed.
  - intros Hnone. unfold markReminderComplete. now rewrite Hnone.
Qed.

Lemma markReminderComplete_idempotent_monotonic_witness :
  (snd (markReminderComplete store0 "rem-1") = true /\
   snd (markReminderComplete store1 "rem-1") = true) /\
  (exists r', JsMap.get (reminders (run store1 sampleOps)) "rem-1" = Some r' /\
              Reminder.completed r' = Some true) /\
  markReminderComplete store0 "rem-9" = (store0, false).
Proof.
  destruct (markReminderComplete_idempotent_monotonic store0 "rem-1")
    as (Htwice & _ & _).
  destruct (markReminderComplete_idempotent_monotonic store1 "rem-1")
    as (_ & Hmono & _).
  destruct (markReminderComplete_idempotent_monotonic store0 "rem-9")
    as (_ & _ & Habsent).
  split; [|split].
  - destruct (Htwice _ eq_refl) as (H1 & _ & H2 & _). split; assumption.
  - exact (Hmono _ sampleOps eq_refl eq_refl eq_refl).
  - exact (Habsent eq_refl).
Defined.

(** ** Project update *)

(** C5, as stated, fails in its last part: an update whose clock reading is
    the instant already recorded in [updatedAt] (two calls within one
    millisecond) leaves [updatedAt] equal to its prior value, not greater. *)
Lemma updateProject_updatedAt_counterexample :
  exists p p',
    getProject store0 "proj-1" = Some p /\
    getProject (fst (updateProject store0 "proj-1" descriptionX 1700000000000))
      "proj-1" = Some p' /\
    Project.description p' = Some "x" /\
    ~ (Project.updatedAt p < Project.updatedAt p').
Proof.
  do 2 eexists. split; [reflexivity|]. split; [reflexivity|].
  split; [reflexivity|]. simpl. lia.
Qed.

(** C5 (amended): for a project present in the store,
    [updateProject id {description: "x"}] followed by [getProject id] yields
    the project with [description = "x"], every other field except
    [updatedAt] as before, and [updatedAt] equal to the clock reading of the
    update; [updatedAt] is strictly greater than its prior value exactly when
    that reading is later than the prior value. *)
Theorem updateProject_description_roundtrip s id p now :
  getProject s id = Some p ->
  let s' := fst (updateProject s id descriptionX now) in
  exists p',
    getProject s' id = Some p' /\
    snd (updateProject s id descriptionX now) = Some p' /\
    Project.description p' = Some "x" /\
    Project.id p' = Project.id p /\
    Project.name p' = Project.name p /\
    Project.location p' = Project.location p /\
    Project.status p' = Project.status p /\
    Project.type p' = Project.type p /\
    Project.createdAt p' = Project.createdAt p /\
    Project.updatedAt p' = now /\
    (Project.updatedAt p < Project.updatedAt p' <-> Project.updatedAt p < now).
Proof.
  unfold getProject. intros Hget. cbv zeta.
  unfold updateProject. rewrite Hget. simpl.
  exists (spreadProject p descriptionX now).
  rewrite get_set_eq. destruct p. simpl. repeat split; auto.
Qed.

Lemma updateProject_description_roundtrip_witness :
  exists p',
    getProject (fst (updateProject store0 "proj-1" descriptionX 1700000000777))
      "proj-1" = Some p' /\
    Project.description p' = Some "x" /\
    Project.name p' = "Downtown Office Complex" /\
    Project.updatedAt p' = 1700000000777.
Proof.
  destruct (updateProject_description_roundtrip store0 "proj-1" _ 1700000000777 eq_refl)
    as (p' & Hget & _ & Hd & _ & Hn & _ & _ & _ & _ & Hu & _).
  exists p'. repeat split; assumption.
Defined.

(** ** Joined list views *)

Lemma or_default_displayName x d : or_default x d = displayName x d.
Proof. destruct x as [[|c n]|]; reflexivity. Qed.

Lemma or_default_missing d : or_default None d = d.
Proof. reflexivity. Qed.

Lemma or_default_empty d : or_default (Some "") d = d.
Proof. reflexivity. Qed.

Lemma or_default_nonempty n d : n <> "" -> or_default (Some n) d = n.
Proof. destruct n; [congruence | reflexivity]. Qed.

Lemma getTestResults_entities s :
  map trv_result (getTestResults s) = JsMap.values (testResults s).
Proof.
  unfold getTestResults. rewrite map_map. simpl. apply map_id.
Qed.

(** C6, as stated, fails: in [storeE] the test result [res-1] references the
    existing project [proj-4], whose name is the empty string, and its entry
    carries ["Unknown Project"], which is not that project's name. *)
Lemma getTestResults_projectName_counterexample :
  exists v p,
    In v (getTestResults storeE) /\
    getProject storeE (TestResult.projectId (trv_result v)) = Some p /\
    trv_projectName v <> Project.name p.
Proof.
  do 2 eexists. split; [left; reflexivity|]. split; [reflexivity|].
  simpl. discriminate.
Qed.

(** C6 (amended): [getTestResults] is total on every store state and returns
    one entry per stored test result, in store order.  An entry carries
    [projectName] equal to the name of the referenced project when that
    project is in the store and its name is not empty, and the literal
    ["Unknown Project"] when the project is missing or its name is empty;
    likewise [testName] is the referenced material test's name, or
    ["Unknown Test"] when the test is missing or its name is empty. *)
Theorem getTestResults_total_join s :
  map trv_result (getTestResults s) = JsMap.values (testResults s) /\
  Forall (fun v =>
            trv_projectName v =
              match getProject s (TestResult.projectId (trv_result v)) with
              | Some p =>
                  if String.eqb (Project.name p) "" then "Unknown Project"
                  else Project.name p
              | None => "Unknown Project"
              end /\
            trv_testName v =
              match JsMap.get (materialTests s)
                      (TestResult.materialTestId (trv_result v)) with
              | Some t =>
                  if String.eqb (MaterialTest.name t) "" then "Unknown Test"
                  else MaterialTest.name t
              | None => "Unknown Test"
              end)
         (getTestResults s).
Proof.
  split; [apply getTestResults_entities|].
  unfold getTestResults, getProject. apply Forall_forall.
  intros v Hv. apply in_map_iff in Hv. destruct Hv as (r & <- & _). simpl.
  rewrite !or_default_displayName. split.
  - now destruct (JsMap.get (projects s) (TestResult.projectId r)).
  - now destruct (JsMap.get (materialTests s) (TestResult.materialTestId r)).
Qed.

(** ** Sorted list views *)

Lemma StronglySorted_weaken {A : Type} (R R' : A -> A -> Prop) (l : list A) :
  (forall a b, R a b -> R' a b) -> StronglySorted R l -> StronglySorted R' l.
Proof.
  intros Himp. induction 1 as [|x l Hs IH Hall]; constructor; auto.
  eapply Forall_impl; [|exact Hall]. auto.
Qed.


Lemma sort_descending {A : Type} (key : A -> Z) (l : list A) :
  StronglySorted (fun a b => key a >= key b) (sort (fun a b => key b - key a) l).
Proof.
  apply (StronglySorted_weaken (before (fun a b => key b - key a))).
  - unfold before. intros a b H. lia.
  - apply sort_sorted; intros; lia.
Qed.

Lemma getActiveReminders_entities s :
  Permutation (map rv_reminder (getActiveReminders s))
    (filter (fun r => negb (truthy (Reminder.completed r)))
       (JsMap.values (reminders s))).
Proof.
  unfold getActiveReminders. rewrite sort_perm, map_map. simpl.
  now rewrite map_id.
Qed.



(** C9: [getProjectPhotos projectId] returns exactly the photos of that
    project, each once, newest [takenAt] first, and [getProjectDocuments
    projectId] exactly the documents of that project, newest [uploadedAt]
    first. *)
Theorem getProjectPhotos_getProjectDocuments_newest_first s projectId :
  (Permutation (getProjectPhotos s projectId)
     (filter (fun p => String.eqb (Photo.projectId p) projectId)
        (JsMap.values (photos s))) /\
   StronglySorted (fun a b => Photo.takenAt a >= Photo.takenAt b)
     (getProjectPhotos s projectId) /\
   Forall (fun p => Photo.projectId p = projectId) (getProjectPhotos s projectId)) /\
  (Permutation (getProjectDocuments s projectId)
     (filter (fun d => String.eqb (Document.projectId d) projectId)
        (JsMap.values (documents s))) /\
   StronglySorted (fun a b => Document.uploadedAt a >= Document.uploadedAt b)
     (getProjectDocuments s projectId) /\
   Forall (fun d => Document.projectId d = projectId)
     (getProjectDocuments s projectId)).
Proof.
  split; (split; [apply sort_perm|]; split;
          [apply sort_descending|]);
    apply Forall_forall; intros x Hx; apply sort_In, filter_In in Hx;
    destruct Hx as [_ Hx]; now apply String.eqb_eq in Hx.
Qed.

(** ** The placeholder for an empty project name *)

Lemma getCalendarEvents_entities getMonth getFullYear s month year :
  map cev_event (getCalendarEvents getMonth getFullYear s month year) =
  match month, year with
  | Some m, Some y =>
      filter (fun e => (getMonth (CalendarEvent.date e) =? m)
                       && (getFullYear (CalendarEvent.date e) =? y))
        (JsMap.values (calendarEvents s))
  | _, _ => JsMap.values (calendarEvents s)
  end.
Proof.
  unfold getCalendarEvents. rewrite map_map. simpl. rewrite map_id.
  destruct month, year; reflexivity.
Qed.

(** C10: when the project a test result, an active reminder or a calendar
    event references is in the store and its name is the empty string, the
    entry of that entity in [getTestResults], [getActiveReminders] and
    [getCalendarEvents] (under any month/year filter) carries the project
    name ["Unknown Project"].  Every stored test result, every reminder that
    is not completed and, without a filter, every calendar event has its
    entry in the respective view. *)
Theorem empty_project_name_shown_as_unknown
    (getMonth getFullYear : Z -> Z) s p :
  Project.name p = "" ->
  map trv_result (getTestResults s) = JsMap.values (testResults s) /\
  Permutation (map rv_reminder (getActiveReminders s))
    (filter (fun r => negb (truthy (Reminder.completed r)))
       (JsMap.values (reminders s))) /\
  map cev_event (getCalendarEvents getMonth getFullYear s None None) =
    JsMap.values (calendarEvents s) /\
  (forall v, In v (getTestResults s) ->
     getProject s (TestResult.projectId (trv_result v)) = Some p ->
     trv_projectName v = "Unknown Project") /\
  (forall v, In v (getActiveReminders s) ->
     getProject s (Reminder.projectId (rv_reminder v)) = Some p ->
     rv_projectName v = "Unknown Project") /\
  (forall month year v,
     In v (getCalendarEvents getMonth getFullYear s month year) ->
     getProject s (CalendarEvent.projectId (cev_event v)) = Some p ->
     cev_projectName v = "Unknown Project").
Proof.
  unfold getProject. intros Hname.
  split; [apply getTestResults_entities|].
  split; [apply getActiveReminders_entities|].
  split; [apply (getCalendarEvents_entities getMonth getFullYear s None None)|].
  split; [|split].
  - intros v Hv Hp. unfold getTestResults in Hv.
    apply in_map_iff in Hv. destruct Hv as (r & <- & _). simpl in *.
    rewrite Hp. simpl. rewrite Hname. reflexivity.
  - intros v Hv Hp. unfold getActiveReminders in Hv.
    apply sort_In, in_map_iff in Hv. destruct Hv as (r & <- & _). simpl in *.
    rewrite Hp. simpl. rewrite Hname. reflexivity.
  - intros month year v Hv Hp. unfold getCalendarEvents in Hv.
    apply in_map_iff in Hv. destruct Hv as (e & <- & _). simpl in *.
    rewrite Hp. simpl. rewrite Hname. reflexivity.
Qed.

Lemma empty_project_name_shown_as_unknown_witness :
  (exists v, In v (getTestResults storeE) /\
             TestResult.id (trv_result v) = "res-1" /\
             trv_projectName v = "Unknown Project") /\
  (exists v, In v (getActiveReminders storeE) /\
             Reminder.id (rv_reminder v) = "rem-4" /\
             rv_projectName v = "Unknown Project") /\
  (exists v, In v (getCalendarEvents (fun _ => 10) (fun _ => 2023) storeE
                     (Some 10) (Some 2023)) /\
             CalendarEvent.id (cev_event v) = "evt-1" /\
             cev_projectName v = "Unknown Project").
Proof.
  destruct (empty_project_name_shown_as_unknown (fun _ => 10) (fun _ => 2023)
              storeE
              (Project.mk "proj-4" "" None None (Some "active") "building"
                 1700000000010 1700000000010) eq_refl)
    as (_ & _ & _ & Ht & Hr & Hc).
  split; [|split].
  - exists {| trv_result :=
                TestResult.mk "res-1" "proj-4" "test-1" "4200 PSI" "pass"
                  1700000000020;
              trv_projectName := "Unknown Project";
              trv_testName := "Compressive Strength" |}.
    split; [left; reflexivity|]. split; [reflexivity|].
    apply Ht; [left; reflexivity | reflexivity].
  - exists {| rv_reminder :=
                Reminder.mk "rem-4" "proj-4" "Cylinder break" "material_test"
                  1700000900000 (Some false) 1700000000030;
              rv_projectName := "Unknown Project" |}.
    split; [left; reflexivity|]. split; [reflexivity|].
    apply Hr; [left; reflexivity | reflexivity].
  - exists {| cev_event :=
                CalendarEvent.mk "evt-1" "proj-4" "Site visit" None
                  1700001000000 "visit" 1700000000040;
              cev_projectName := "Unknown Project" |}.
    split; [left; reflexivity|]. split; [reflexivity|].
    apply (Hc (Some 10) (Some 2023)); [left; reflexivity | reflexivity].
Defined.

(** ** Stats *)

Lemma length_filter_countIf {A : Type} (f : A -> bool) (l : list A) :
  List.length (filter f l) = countIf f l.
Proof.
  induction l as [|x l IH]; simpl; auto.
  destruct (f x); simpl; now rewrite IH.
Qed.

Lemma countIf_app {A : Type} (f : A -> bool) (l1 l2 : list A) :
  countIf f (l1 ++ l2) = (countIf f l1 + countIf f l2)%nat.
Proof. induction l1 as [|x l1 IH]; simpl; auto. rewrite IH. lia. Qed.

Lemma getProjectStats_countIf s :
  activeProjects (getProjectStats s) =
    countIf (fun p => statusIs "active" (Project.status p)) (JsMap.values (projects s)) /\
  photosCount (getProjectStats s) = List.length (JsMap.values (photos s)) /\
  pendingInspections (getProjectStats s) =
    countIf (fun r => negb (truthy (Reminder.completed r))) (JsMap.values (reminders s)) /\
  documentsCount (getProjectStats s) = List.length (JsMap.values (documents s)).
Proof.
  unfold getProjectStats. simpl. rewrite !length_filter_countIf.
  repeat split; reflexivity.
Qed.

Lemma createProject_stats s project id now1 now2 :
  JsMap.get (projects s) id = None ->
  let s' := fst (createProject s project id now1 now2) in
  activeProjects (getProjectStats s') =
    (activeProjects (getProjectStats s)
     + if statusIs "active" (InsertProject.status project) then 1 else 0)%nat /\
  photos s' = photos s.
Proof.
  intros Hfresh. cbv zeta.
  destruct (getProjectStats_countIf (fst (createProject s project id now1 now2)))
    as (-> & _).
  destruct (getProjectStats_countIf s) as (-> & _).
  unfold createProject. simpl. rewrite values_set_fresh by assumption.
  rewrite countIf_app. simpl. split; [lia | reflexivity].
Qed.

Lemma createProjects_cons s c calls :
  createProjects s (c :: calls) =
  createProjects (fst (createProject s (projectCallInput c) (projectCallId c)
                         (snd (fst c)) (snd c))) calls.
Proof. reflexivity. Qed.

Lemma createPhotos_cons s c calls :
  createPhotos s (c :: calls) =
  createPhotos (fst (createPhoto s (fst (fst (fst c))) (photoCallId c)
                       (snd (fst c)) (snd c))) calls.
Proof. reflexivity. Qed.

Lemma createProjects_stats calls : forall s,
  NoDup (map projectCallId calls) ->
  (forall c, In c calls -> JsMap.get (projects s) (projectCallId c) = None) ->
  activeProjects (getProjectStats (createProjects s calls)) =
    (activeProjects (getProjectStats s)
     + countIf (fun c => statusIs "active" (InsertProject.status (projectCallInput c)))
         calls)%nat /\
  photos (createProjects s calls) = photos s.
Proof.
  induction calls as [|c calls IH]; intros s Hnd Hfresh.
  - simpl. split; [lia | reflexivity].
  - inversion Hnd as [|? ? Hnin Hnd']; subst.
    destruct (createProject_stats s (projectCallInput c) (projectCallId c)
                (snd (fst c)) (snd c)) as (Ha & Hp).
    { apply Hfresh. now left. }
    rewrite createProjects_cons.
    destruct (IH (fst (createProject s (projectCallInput c) (projectCallId c)
                         (snd (fst c)) (snd c))) Hnd') as (Ha' & Hp').
    { intros c' Hc'. unfold createProject. simpl.
      rewrite get_set_ne.
      - apply Hfresh. now right.
      - intros Heq. apply Hnin. rewrite Heq. now apply in_map. }
    rewrite Ha', Ha, Hp', Hp. simpl. split; [lia | reflexivity].
Qed.

Lemma createPhotos_stats calls : forall s,
  NoDup (map photoCallId calls) ->
  (forall c, In c calls -> JsMap.get (photos s) (photoCallId c) = None) ->
  photosCount (getProjectStats (createPhotos s calls)) =
    (photosCount (getProjectStats s) + List.length calls)%nat /\
  projects (createPhotos s calls) = projects s.
Proof.
  induction calls as [|c calls IH]; intros s Hnd Hfresh.
  - simpl. split; [lia | reflexivity].
  - inversion Hnd as [|? ? Hnin Hnd']; subst.
    rewrite createPhotos_cons.
    destruct (IH (fst (createPhoto s (fst (fst (fst c))) (photoCallId c)
                         (snd (fst c)) (snd c))) Hnd') as (Hn & Hp).
    { intros c' Hc'. unfold createPhoto. simpl.
      rewrite get_set_ne.
      - apply Hfresh. now right.
      - intros Heq. apply Hnin. rewrite Heq. now apply in_map. }
    rewrite Hn, Hp. unfold createPhoto, getProjectStats. simpl.
    rewrite values_set_fresh by (apply Hfresh; now left).
    rewrite length_app. simpl. split; [lia | reflexivity].
Qed.

(** C8, as stated, fails in its example: on the store the constructor
    builds, which already holds one active project, creating three projects
    (two active, one complete) and five photos leaves [activeProjects] at 3,
    not 2. *)
Lemma getProjectStats_batch_counterexample :
  List.length sampleProjectCalls = 3%nat /\
  countIf (fun c => statusIs "active" (InsertProject.status (projectCallInput c)))
    sampleProjectCalls = 2%nat /\
  countIf (fun c => statusIs "complete" (InsertProject.status (projectCallInput c)))
    sampleProjectCalls = 1%nat /\
  List.length samplePhotoCalls = 5%nat /\
  getProjectStats
    (createPhotos (createProjects store0 sampleProjectCalls) samplePhotoCalls)
  = {| activeProjects := 3; photosCount := 5;
       pendingInspections := 1; documentsCount := 0 |} /\
  activeProjects
    (getProjectStats
       (createPhotos (createProjects store0 sampleProjectCalls) samplePhotoCalls))
  <> 2%nat.
Proof. repeat split; try reflexivity. discriminate. Qed.

Lemma initializeData_stats clk :
  getProjectStats (initializeData clk)
  = {| activeProjects := 1; photosCount := 0;
       pendingInspections := 1; documentsCount := 0 |}.
Proof. reflexivity. Qed.

(** C8 (amended): on every store state [getProjectStats] returns
    [activeProjects] equal to the number of projects whose status is
    ["active"], [photosCount] equal to the number of stored photos,
    [pendingInspections] equal to the number of reminders that are not
    completed, and [documentsCount] equal to the number of stored documents.
    Creating three projects, two active and one complete, and five photos,
    under fresh identifiers, raises [activeProjects] by 2 and [photosCount]
    by 5; on the store the constructor builds, which holds one active
    project and no photo, [activeProjects] is then 3 and [photosCount] is
    5. *)
Theorem getProjectStats_counts s :
  (activeProjects (getProjectStats s) =
     countIf (fun p => statusIs "active" (Project.status p))
       (JsMap.values (projects s)) /\
   photosCount (getProjectStats s) = List.length (JsMap.values (photos s)) /\
   pendingInspections (getProjectStats s) =
     countIf (fun r => negb (truthy (Reminder.completed r)))
       (JsMap.values (reminders s)) /\
   documentsCount (getProjectStats s) = List.length (JsMap.values (documents s))) /\
  (forall projectCalls photoCalls,
     List.length projectCalls = 3%nat ->
     countIf (fun c => statusIs "active" (InsertProject.status (projectCallInput c)))
       projectCalls = 2%nat ->
     countIf (fun c => statusIs "complete" (InsertProject.status (projectCallInput c)))
       projectCalls = 1%nat ->
     List.length photoCalls = 5%nat ->
     NoDup (map projectCallId projectCalls) ->
     NoDup (map photoCallId photoCalls) ->
     (forall c, In c projectCalls -> JsMap.get (projects s) (projectCallId c) = None) ->
     (forall c, In c photoCalls -> JsMap.get (photos s) (photoCallId c) = None) ->
     let s' := createPhotos (createProjects s projectCalls) photoCalls in
     activeProjects (getProjectStats s') = (activeProjects (getProjectStats s) + 2)%nat /\
     photosCount (getProjectStats s') = (photosCount (getProjectStats s) + 5)%nat /\
     (forall clk, s = initializeData clk ->
      activeProjects (getProjectStats s') = 3%nat /\
      photosCount (getProjectStats s') = 5%nat)).
Proof.
  split; [apply getProjectStats_countIf|].
  intros projectCalls photoCalls Hlen Hact _ Hlen' Hnd Hnd' Hfresh Hfresh'.
  cbv zeta.
  destruct (createProjects_stats projectCalls s Hnd Hfresh) as (Ha & Hp).
  destruct (createPhotos_stats photoCalls (createProjects s projectCalls) Hnd')
    as (Hn & Hq).
  { intros c Hc. rewrite Hp. now apply Hfresh'. }
  assert (Hact' : activeProjects
                    (getProjectStats (createPhotos (createProjects s projectCalls) photoCalls))
                  = activeProjects (getProjectStats (createProjects s projectCalls))).
  { unfold getProjectStats. simpl. now rewrite Hq. }
  assert (Hcnt : photosCount (getProjectStats (createProjects s projectCalls))
                 = photosCount (getProjectStats s)).
  { unfold getProjectStats. simpl. now rewrite Hp. }
  rewrite Hact', Ha, Hact, Hn, Hcnt, Hlen'.
  split; [reflexivity|]. split; [reflexivity|].
  intros clk ->. rewrite initializeData_stats. simpl. auto.
Qed.

Lemma getProjectStats_counts_witness :
  activeProjects
    (getProjectStats
       (createPhotos (createProjects store0 sampleProjectCalls) samplePhotoCalls))
  = (activeProjects (getProjectStats store0) + 2)%nat /\
  photosCount
    (getProjectStats
       (createPhotos (createProjects store0 sampleProjectCalls) samplePhotoCalls))
  = (photosCount (getProjectStats store0) + 5)%nat /\
  activeProjects
    (getProjectStats
       (createPhotos (createProjects store0 sampleProjectCalls) samplePhotoCalls))
  = 3%nat.
Proof.
  assert (Hnd : NoDup (map projectCallId sampleProjectCalls)).
  { repeat constructor; simpl; intuition discriminate. }
  assert (Hnd' : NoDup (map photoCallId samplePhotoCalls)).
  { repeat constructor; simpl; intuition discriminate. }
  destruct (getProjectStats_counts store0) as (_ & H).
  destruct (H sampleProjectCalls samplePhotoCalls eq_refl eq_refl eq_refl eq_refl
              Hnd Hnd') as (Hadd & Hph & Hseed).
  - intros c [<-|[<-|[<-|[]]]]; reflexivity.
  - intros c _. reflexivity.
  - split; [exact Hadd|]. split; [exact Hph|].
    exact (proj1 (Hseed (fun _ => 1700000000000) eq_refl)).
Defined.

(** ** The next-inspection label *)

Lemma ceil_div_bounds x d :
  0 < d -> d * (ceil_div x d - 1) < x <= d * ceil_div x d.
Proof.
  intros Hd. unfold ceil_div.
  pose proof (Z.div_mod (- x) d ltac:(lia)) as Hdm.
  pose proof (Z.mod_pos_bound (- x) d Hd) as Hb.
  nia.
Qed.

Lemma ceil_div_unique x d n :
  0 < d -> d * (n - 1) < x <= d * n -> ceil_div x d = n.
Proof.
  intros Hd Hn. pose proof (ceil_div_bounds x d Hd) as Hc. nia.
Qed.

(** C2, as stated, fails at two of its own boundary points and in its rule
    for "Today" and "Tomorrow".  With the clock at 22:13:20 UTC: a reminder
    due one millisecond ago is labelled "Today", not "Overdue"; one due 25
    hours later, across a single midnight, is labelled "2 days", not
    "Tomorrow"; one due an hour later on the same calendar day is labelled
    "Tomorrow", not "Today". *)
Lemma getNextInspection_boundary_counterexample :
  getNextInspection (storeDue (sampleNow - 1)) "proj-2" sampleNow = Some "Today" /\
  getNextInspection (storeDue (sampleNow + 25 * msPerHour)) "proj-2" sampleNow
    = Some "2 days" /\
  getNextInspection (storeDue (sampleNow + msPerHour)) "proj-2" sampleNow
    = Some "Tomorrow".
Proof. repeat split; reflexivity. Qed.

(** The reminders [getNextInspection] chooses from. *)
Lemma getNextInspection_first s projectId now :
  (exists r, In r (JsMap.values (reminders s)) /\
             Reminder.projectId r = projectId /\
             truthy (Reminder.completed r) = false) ->
  exists next,
    In next (JsMap.values (reminders s)) /\
    Reminder.projectId next = projectId /\
    truthy (Reminder.completed next) = false /\
    (forall r, In r (JsMap.values (reminders s)) ->
               Reminder.projectId r = projectId ->
               truthy (Reminder.completed r) = false ->
               Reminder.scheduledFor next <= Reminder.scheduledFor r) /\
    getNextInspection s projectId now =
      let diffDays := ceil_div (Reminder.scheduledFor next - now) msPerDay in
      if diffDays =? 0 then Some "Today"
      else if diffDays =? 1 then Some "Tomorrow"
      else if 1 <? diffDays then Some (number_to_string diffDays ++ " days")
      else Some "Overdue".
Proof.
  intros (r0 & Hin0 & Hp0 & Hc0). unfold getNextInspection.
  set (cmp := fun a b => Reminder.scheduledFor a - Reminder.scheduledFor b).
  set (l := filter _ (JsMap.values (reminders s))).
  assert (Hmem : forall r, In r l <->
            In r (JsMap.values (reminders s)) /\
            Reminder.projectId r = projectId /\
            truthy (Reminder.completed r) = false).
  { intros r. unfold l. rewrite filter_In, andb_true_iff, String.eqb_eq,
      negb_true_iff. tauto. }
  destruct (sort cmp l) as [|next rest] eqn:E.
  - exfalso. assert (H : In r0 (sort cmp l)) by (apply sort_In, Hmem; auto).
    rewrite E in H. exact H.
  - destruct (sort_head_least cmp) with (x := next) (l' := rest) (l := l)
      as (Hin & Hleast); try assumption; try (unfold cmp; intros; lia).
    apply Hmem in Hin. destruct Hin as (Hin & Hp & Hc).
    exists next. repeat split; try assumption.
    intros r Hr Hrp Hrc.
    assert (H : cmp next r <= 0) by (apply Hleast, Hmem; auto).
    unfold cmp in H. lia.
Qed.

Lemma number_to_string_examples :
  number_to_string 2 = "2" /\ number_to_string 14 = "14" /\
  number_to_string 365 = "365".
Proof. repeat split; reflexivity. Qed.

(** C2 (amended): for a project with at least one reminder that is not
    completed, [nextInspection] is derived from the earliest such reminder's
    [scheduledFor] and is exactly one of four labels, chosen by
    [N = ceil ((scheduledFor - now) / one day)], a count of 24-hour periods
    and not of calendar days: "Today" when [N = 0], that is
    [now - 24h < scheduledFor <= now]; "Tomorrow" when [N = 1], that is
    [now < scheduledFor <= now + 24h]; "N days" when [N > 1], that is
    [scheduledFor > now + 24h]; "Overdue" when [scheduledFor <= now - 24h].
    In particular [scheduledFor = now] gives "Today", [now - 1ms] gives
    "Today", and [now + 25h] gives "2 days". *)
Theorem getNextInspection_label s projectId now :
  (exists r, In r (JsMap.values (reminders s)) /\
             Reminder.projectId r = projectId /\
             truthy (Reminder.completed r) = false) ->
  exists next,
    In next (JsMap.values (reminders s)) /\
    Reminder.projectId next = projectId /\
    truthy (Reminder.completed next) = false /\
    (forall r, In r (JsMap.values (reminders s)) ->
               Reminder.projectId r = projectId ->
               truthy (Reminder.completed r) = false ->
               Reminder.scheduledFor next <= Reminder.scheduledFor r) /\
    let d := Reminder.scheduledFor next - now in
    let N := ceil_div d msPerDay in
    msPerDay * (N - 1) < d <= msPerDay * N /\
    (- msPerDay < d <= 0 -> getNextInspection s projectId now = Some "Today") /\
    (0 < d <= msPerDay -> getNextInspection s projectId now = Some "Tomorrow") /\
    (msPerDay < d ->
     1 < N /\
     getNextInspection s projectId now = Some (number_to_string N ++ " days")) /\
    (d <= - msPerDay -> getNextInspection s projectId now = Some "Overdue") /\
    (d = 0 -> getNextInspection s projectId now = Some "Today") /\
    (d = -1 -> getNextInspection s projectId now = Some "Today") /\
    (d = 25 * msPerHour -> getNextInspection s projectId now = Some "2 days").
Proof.
  intros Hex.
  destruct (getNextInspection_first s projectId now Hex)
    as (next & Hin & Hp & Hc & Hleast & Hlabel).
  exists next. do 4 (split; [assumption|]). cbv zeta in *.
  assert (Hday : 0 < msPerDay) by (unfold msPerDay; lia).
  pose proof (ceil_div_bounds (Reminder.scheduledFor next - now) msPerDay Hday) as Hb.
  split; [exact Hb|].
  rewrite Hlabel. clear Hlabel.
  assert (Htoday : - msPerDay < Reminder.scheduledFor next - now <= 0 ->
                   ceil_div (Reminder.scheduledFor next - now) msPerDay = 0).
  { intros H. apply ceil_div_unique; lia. }
  assert (Htomorrow : 0 < Reminder.scheduledFor next - now <= msPerDay ->
                      ceil_div (Reminder.scheduledFor next - now) msPerDay = 1).
  { intros H. apply ceil_div_unique; lia. }
  repeat split.
  - intros H. now rewrite (Htoday H).
  - intros H. now rewrite (Htomorrow H).
  - nia.
  - assert (HN : 1 < ceil_div (Reminder.scheduledFor next - now) msPerDay) by nia.
    destruct (Z.eqb_spec (ceil_div (Reminder.scheduledFor next - now) msPerDay) 0);
      [lia|].
    destruct (Z.eqb_spec (ceil_div (Reminder.scheduledFor next - now) msPerDay) 1);
      [lia|].
    destruct (Z.ltb_spec 1 (ceil_div (Reminder.scheduledFor next - now) msPerDay));
      [reflexivity | lia].
  - intros H.
    assert (HN : ceil_div (Reminder.scheduledFor next - now) msPerDay < 0) by nia.
    destruct (Z.eqb_spec (ceil_div (Reminder.scheduledFor next - now) msPerDay) 0);
      [lia|].
    destruct (Z.eqb_spec (ceil_div (Reminder.scheduledFor next - now) msPerDay) 1);
      [lia|].
    destruct (Z.ltb_spec 1 (ceil_div (Reminder.scheduledFor next - now) msPerDay));
      [lia | reflexivity].
  - intros H. rewrite Htoday; [reflexivity | unfold msPerDay; lia].
  - intros H. rewrite Htoday; [reflexivity | unfold msPerDay; lia].
  - intros H. rewrite H. reflexivity.
Qed.

Lemma getNextInspection_label_witness :
  getNextInspection (storeDue (sampleNow + 25 * msPerHour)) "proj-2" sampleNow
    = Some "2 days".
Proof.
  destruct (getNextInspection_label (storeDue (sampleNow + 25 * msPerHour))
              "proj-2" sampleNow)
    as (next & Hin & Hp & _ & _ & _ & _ & _ & _ & _ & _ & _ & H25).
  - exists (Reminder.mk "rem-2" "proj-2" "Bridge deck walk" "599"
              (sampleNow + 25 * msPerHour) (Some false) 1700000000000).
    split; [right; left; reflexivity|]. split; reflexivity.
  - destruct Hin as [Hin|[Hin|[]]]; subst next.
    + discriminate Hp.
    + apply H25. reflexivity.
Defined.

(** The list view of projects takes its label from [getNextInspection] and
    its counts from the per-project lists. *)
Lemma getProjects_rows s clock :
  map pwc_project (getProjects s clock) = JsMap.values (projects s) /\
  Forall (fun row =>
            let pid := Project.id (pwc_project row) in
            nextInspection row = getNextInspection s pid (clock pid) /\
            photoCount row = List.length (getProjectPhotos s pid) /\
            documentCount row = List.length (getProjectDocuments s pid))
    (getProjects s clock).
Proof.
  unfold getProjects. split.
  - rewrite map_map. simpl. apply map_id.
  - apply Forall_forall. intros row Hrow.
    apply in_map_iff in Hrow. destruct Hrow as (p & <- & _). simpl.
    unfold getProjectPhotos, getProjectDocuments. rewrite !sort_length. auto.
Qed.

(** ** Adequacy of the model *)

(** The sort is stable: elements that the comparator does not separate keep
    their relative order. *)
Lemma insert_stable {A : Type} (cmp : A -> A -> Z) (p : A -> bool) x l :
  (forall a b, p a = true -> p b = true -> cmp a b <= 0) ->
  filter p (insert cmp x l) = filter p (x :: l).
Proof.
  intros Hp. induction l as [|y l IH]; [reflexivity|].
  simpl insert. destruct (Z.leb_spec (cmp x y) 0) as [Hle|Hgt]; [reflexivity|].
  simpl in *. rewrite IH.
  destruct (p x) eqn:Ex, (p y) eqn:Ey; try reflexivity.
  specialize (Hp x y Ex Ey). lia.
Qed.

Lemma sort_stable {A : Type} (cmp : A -> A -> Z) (p : A -> bool) l :
  (forall a b, p a = true -> p b = true -> cmp a b <= 0) ->
  filter p (sort cmp l) = filter p l.
Proof.
  intros Hp. induction l as [|x l IH]; [reflexivity|].
  simpl sort. rewrite insert_stable by assumption.
  simpl. now rewrite IH.
Qed.

(** Every call keeps the keys of every map distinct. *)
Lemma exec_wf s op : store_wf s -> store_wf (exec s op).
Proof.
  unfold store_wf. intros (Hp & Hph & Hd & Hm & Ht & Hr & Hc).
  destruct op; simpl; auto 10 using (@wf_set), (@wf_remove).
  - unfold updateProject. destruct (JsMap.get (projects s) id); simpl;
      auto 10 using (@wf_set).
  - unfold markReminderComplete. destruct (JsMap.get (reminders s) id); simpl;
      auto 10 using (@wf_set).
Qed.

Lemma initializeData_wf clk : store_wf (initializeData clk).
Proof.
  unfold store_wf, JsMap.wf. simpl.
  repeat split; repeat constructor; simpl; intuition discriminate.
Qed.

Lemma run_wf ops : forall s, store_wf s -> store_wf (run s ops).
Proof.
  induction ops as [|op ops IH]; simpl; auto using exec_wf.
Qed.

(** * Further properties of the storage layer *)

(** ** More facts about insertion-ordered maps *)

Section JsMapMoreFacts.
Context {V : Type}.
Implicit Types (m : JsMap.t V) (k : string) (v : V).

Lemma remove_absent m k : JsMap.get m k = None -> JsMap.remove m k = m.
Proof.
  unfold JsMap.remove. induction m as [|[k' v'] m IH]; simpl; auto.
  destruct (String.eqb k' k); [discriminate|]. simpl.
  intros H. now rewrite IH.
Qed.

Lemma length_remove_present m k v :
  JsMap.wf m -> JsMap.get m k = Some v ->
  S (List.length (JsMap.remove m k)) = List.length m.
Proof.
  unfold JsMap.wf, JsMap.keys, JsMap.remove.
  induction m as [|[k' v'] m IH]; simpl; [discriminate|].
  intros Hwf. inversion Hwf as [|? ? Hnin Hnd]; subst.
  destruct (String.eqb_spec k' k) as [->|Hk]; simpl.
  - intros _. f_equal.
    change (List.length (JsMap.remove m k) = List.length m).
    rewrite remove_absent; [reflexivity|].
    now apply get_None_not_key.
  - intros H. f_equal. now apply IH.
Qed.

(** Overwriting a present key replaces one value in place. *)
Lemma set_present_split m k v0 v :
  JsMap.get m k = Some v0 ->
  exists m1 m2,
    m = (m1 ++ (k, v0) :: m2)%list /\
    JsMap.set m k v = (m1 ++ (k, v) :: m2)%list.
Proof.
  induction m as [|[k' v'] m IH]; simpl; [discriminate|].
  destruct (String.eqb_spec k' k) as [->|Hk].
  - intros [= ->]. now exists [], m.
  - intros H. destruct (IH H) as (m1 & m2 & -> & ->).
    now exists ((k', v') :: m1), m2.
Qed.

Lemma keys_set_absent m k v :
  JsMap.get m k = None -> JsMap.keys (JsMap.set m k v) = (JsMap.keys m ++ [k])%list.
Proof.
  intros H. rewrite set_fresh by assumption.
  unfold JsMap.keys. now rewrite map_app.
Qed.

Lemma keyed_set (idOf : V -> string) m k v :
  idOf v = k -> keyed idOf m -> keyed idOf (JsMap.set m k v).
Proof.
  intros Hid. unfold keyed. induction 1 as [|[k' v'] m He Hm IH]; simpl.
  - repeat constructor. assumption.
  - destruct (String.eqb_spec k' k) as [->|Hk]; constructor; auto.
Qed.

Lemma keyed_remove (idOf : V -> string) m k :
  keyed idOf m -> keyed idOf (JsMap.remove m k).
Proof.
  unfold keyed, JsMap.remove. intros H.
  apply Forall_forall. intros e He. apply filter_In in He.
  rewrite Forall_forall in H. now apply H.
Qed.

Lemma keyed_get (idOf : V -> string) m k v :
  keyed idOf m -> JsMap.get m k = Some v -> idOf v = k.
Proof.
  intros Hk Hget. apply get_In in Hget.
  unfold keyed in Hk. rewrite Forall_forall in Hk.
  exact (Hk _ Hget).
Qed.

Lemma keyed_values_ids (idOf : V -> string) m :
  keyed idOf m -> map idOf (JsMap.values m) = JsMap.keys m.
Proof.
  unfold keyed, JsMap.values, JsMap.keys. rewrite map_map.
  induction 1 as [|e m He Hm IH]; simpl; congruence.
Qed.

End JsMapMoreFacts.

Lemma with_projects_same s : with_projects s (projects s) = s.
Proof. now destruct s. Qed.

Lemma with_photos_same s : with_photos s (photos s) = s.
Proof. now destruct s. Qed.

Lemma with_documents_same s : with_documents s (documents s) = s.
Proof. now destruct s. Qed.

(** ** Creating, updating and deleting projects *)

(** A created project is found under the drawn identifier with the fields of
    the input and the two clock readings; the status is taken as given, no
    default is filled in.  Other projects are untouched, and under a fresh
    identifier the project becomes the last row of the list view. *)
Theorem createProject_roundtrip s project id now1 now2 clock :
  let s' := fst (createProject s project id now1 now2) in
  let p := snd (createProject s project id now1 now2) in
  getProject s' id = Some p /\
  p = Project.mk id (InsertProject.name project)
        (InsertProject.description project) (InsertProject.location project)
        (InsertProject.status project) (InsertProject.type project) now1 now2 /\
  (forall id', id' <> id -> getProject s' id' = getProject s id') /\
  (getProject s id = None ->
   map pwc_project (getProjects s' clock) =
   (map pwc_project (getProjects s clock) ++ [p])%list).
Proof.
  cbv zeta. unfold getProject, createProject. simpl.
  split; [apply get_set_eq|]. split; [reflexivity|]. split.
  - intros id' Hne. apply get_set_ne. congruence.
  - intros Hfresh. unfold getProjects. rewrite !map_map. simpl.
    rewrite !map_id. now apply values_set_fresh.
Qed.

Lemma createProject_roundtrip_witness :
  map (fun row => Project.id (pwc_project row))
    (getProjects
       (fst (createProject store0
               (InsertProject.mk "Pier 4" None None None "infrastructure")
               "proj-9" 1700000000100 1700000000101))
       (fun _ => sampleNow))
  = ["proj-1"; "proj-2"; "proj-3"; "proj-9"].
Proof.
  destruct (createProject_roundtrip store0
              (InsertProject.mk "Pier 4" None None None "infrastructure")
              "proj-9" 1700000000100 1700000000101 (fun _ => sampleNow))
    as (_ & _ & _ & Happ).
  rewrite <- (map_map pwc_project Project.id).
  rewrite (Happ eq_refl). reflexivity.
Defined.

(** A project created without a status is stored without one, and the stats
    do not count it as active: [activeProjects] grows exactly when the input
    says ["active"]. *)
Theorem createProject_activeProjects s project id now1 now2 :
  getProject s id = None ->
  let s' := fst (createProject s project id now1 now2) in
  (InsertProject.status project = Some "active" ->
   activeProjects (getProjectStats s') = S (activeProjects (getProjectStats s))) /\
  (InsertProject.status project <> Some "active" ->
   activeProjects (getProjectStats s') = activeProjects (getProjectStats s)) /\
  (InsertProject.status project = None ->
   exists p, getProject s' id = Some p /\ Project.status p = None).
Proof.
  intros Hfresh. cbv zeta.
  destruct (createProject_stats s project id now1 now2 Hfresh) as (Ha & _).
  rewrite Ha. split; [|split].
  - intros ->. simpl. lia.
  - intros Hne. destruct (InsertProject.status project) as [st|]; simpl; [|lia].
    destruct (String.eqb_spec st "active"); [congruence | lia].
  - intros Hnone. eexists. split.
    + unfold getProject, createProject. simpl. apply get_set_eq.
    + exact Hnone.
Qed.

Lemma createProject_activeProjects_witness :
  activeProjects
    (getProjectStats
       (fst (createProject store0
               (InsertProject.mk "Pier 4" None None None "infrastructure")
               "proj-9" 1700000000100 1700000000101)))
  = activeProjects (getProjectStats store0).
Proof.
  destruct (createProject_activeProjects store0
              (InsertProject.mk "Pier 4" None None None "infrastructure")
              "proj-9" 1700000000100 1700000000101 eq_refl)
    as (_ & Hsame & _).
  apply Hsame. discriminate.
Defined.

(** [updateProject] on an absent identifier answers nothing and returns the
    store as it was.  On a present one it answers the stored result: each
    field of the update object that is present replaces the project's field,
    every absent one is kept, [id] and [createdAt] are never changed,
    [updatedAt] is the clock reading; the project keeps its place in the
    enumeration, and every other project and every other map is untouched. *)
Theorem updateProject_effect s id updates now :
  match getProject s id with
  | None => updateProject s id updates now = (s, None)
  | Some p =>
      let s' := fst (updateProject s id updates now) in
      exists p',
        snd (updateProject s id updates now) = Some p' /\
        getProject s' id = Some p' /\
        Project.id p' = Project.id p /\
        Project.createdAt p' = Project.createdAt p /\
        Project.updatedAt p' = now /\
        Project.name p' =
          match PartialProject.name updates with
          | Some v => v | None => Project.name p end /\
        Project.description p' =
          match PartialProject.description updates with
          | Some v => v | None => Project.description p end /\
        Project.location p' =
          match PartialProject.location updates with
          | Some v => v | None => Project.location p end /\
        Project.status p' =
          match PartialProject.status updates with
          | Some v => Some v | None => Project.status p end /\
        Project.type p' =
          match PartialProject.type updates with
          | Some v => v | None => Project.type p end /\
        JsMap.keys (projects s') = JsMap.keys (projects s) /\
        (forall id', id' <> id -> getProject s' id' = getProject s id') /\
        with_projects s' (projects s) = s
  end.
Proof.
  unfold getProject, updateProject.
  destruct (JsMap.get (projects s) id) as [p|] eqn:E; [|reflexivity].
  cbv zeta. simpl. exists (spreadProject p updates now).
  rewrite get_set_eq. repeat split.
  - apply keys_set_present. congruence.
  - intros id' Hne. apply get_set_ne. congruence.
  - now destruct s.
Qed.

(** Deleting under an identifier the map does not hold answers [false] and
    returns the store as it was, for projects, photos and documents alike. *)
Theorem delete_absent_noop s id :
  (getProject s id = None -> deleteProject s id = (s, false)) /\
  (JsMap.get (photos s) id = None -> deletePhoto s id = (s, false)) /\
  (JsMap.get (documents s) id = None -> deleteDocument s id = (s, false)).
Proof.
  unfold getProject, deleteProject, deletePhoto, deleteDocument, JsMap.delete,
    JsMap.has.
  repeat split; intros H; rewrite H, remove_absent by assumption.
  - now rewrite with_projects_same.
  - now rewrite with_photos_same.
  - now rewrite with_documents_same.
Qed.

Lemma delete_absent_noop_witness :
  deleteProject store0 "proj-7" = (store0, false) /\
  deletePhoto store0 "ph-1" = (store0, false) /\
  deleteDocument store0 "doc-1" = (store0, false).
Proof.
  destruct (delete_absent_noop store0 "proj-7") as (Hp & _ & _).
  destruct (delete_absent_noop store0 "ph-1") as (_ & Hph & _).
  destruct (delete_absent_noop store0 "doc-1") as (_ & _ & Hd).
  split; [exact (Hp eq_refl)|]. split; [exact (Hph eq_refl) | exact (Hd eq_refl)].
Defined.

(** Deleting a stored photo answers [true], removes it from lookup, keeps
    every other photo, and lowers [photosCount] by exactly one; the same
    holds for documents and [documentsCount]. *)
Theorem deletePhoto_deleteDocument_present s id :
  (forall p, JsMap.wf (photos s) -> JsMap.get (photos s) id = Some p ->
     let s' := fst (deletePhoto s id) in
     snd (deletePhoto s id) = true /\
     JsMap.get (photos s') id = None /\
     (forall id', id' <> id -> JsMap.get (photos s') id' = JsMap.get (photos s) id') /\
     S (photosCount (getProjectStats s')) = photosCount (getProjectStats s)) /\
  (forall d, JsMap.wf (documents s) -> JsMap.get (documents s) id = Some d ->
     let s' := fst (deleteDocument s id) in
     snd (deleteDocument s id) = true /\
     JsMap.get (documents s') id = None /\
     (forall id', id' <> id ->
        JsMap.get (documents s') id' = JsMap.get (documents s) id') /\
     S (documentsCount (getProjectStats s')) = documentsCount (getProjectStats s)).
Proof.
  split; intros x Hwf Hget; cbv zeta;
    unfold deletePhoto, deleteDocument, JsMap.delete, JsMap.has, getProjectStats;
    simpl; rewrite Hget; simpl.
  - split; [reflexivity|]. split; [apply get_remove_eq|]. split.
    + intros id' Hne. apply get_remove_ne. congruence.
    + unfold JsMap.values. rewrite !length_map.
      eapply length_remove_present; eassumption.
  - split; [reflexivity|]. split; [apply get_remove_eq|]. split.
    + intros id' Hne. apply get_remove_ne. congruence.
    + unfold JsMap.values. rewrite !length_map.
      eapply length_remove_present; eassumption.
Qed.

Lemma updateProject_effect_witness :
  (exists p',
     getProject (fst (updateProject store0 "proj-1" renameTowerA 1700000000900))
       "proj-1" = Some p' /\
     Project.name p' = "Tower A" /\
     Project.location p' = Some "Downtown LA" /\
     Project.createdAt p' = 1730419200000) /\
  getProject (fst (updateProject store0 "proj-1" renameTowerA 1700000000900)) "proj-2"
  = getProject store0 "proj-2" /\
  updateProject store0 "proj-7" renameTowerA 1700000000900 = (store0, None).
Proof.
  pose proof (updateProject_effect store0 "proj-1" renameTowerA 1700000000900) as H1.
  pose proof (updateProject_effect store0 "proj-7" renameTowerA 1700000000900) as H7.
  simpl getProject in H1, H7. cbv zeta in H1.
  destruct H1 as (p' & _ & Hget & _ & Hc & _ & Hn & _ & Hl & _ & _ & _ & Hother & _).
  split; [|split].
  - exists p'. repeat split; assumption.
  - apply Hother. discriminate.
  - exact H7.
Defined.

Lemma deletePhoto_deleteDocument_present_witness :
  S (photosCount (getProjectStats (fst (deletePhoto storeP "ph-1"))))
  = photosCount (getProjectStats storeP) /\
  JsMap.get (documents (fst (deleteDocument storeP "doc-1"))) "doc-1" = None.
Proof.
  destruct (deletePhoto_deleteDocument_present storeP "ph-1") as (Hph & _).
  destruct (deletePhoto_deleteDocument_present storeP "doc-1") as (_ & Hd).
  split.
  - destruct (Hph (Photo.mk "ph-1" "proj-1" "north.jpg" None None None
                     1700000000500 1700000000600))
      as (_ & _ & _ & Hcount).
    + unfold JsMap.wf. simpl. repeat constructor; simpl; intuition discriminate.
    + reflexivity.
    + exact Hcount.
  - destruct (Hd (Document.mk "doc-1" "proj-1" "1700-plan.pdf" "plan.pdf" "drawing"
                    52311 1700000000800))
      as (_ & Hgone & _).
    + unfold JsMap.wf. simpl. repeat constructor; simpl; intuition discriminate.
    + reflexivity.
    + exact Hgone.
Defined.

(** ** Invariants of the reachable stores *)

Lemma updateProject_keyed s id updates now :
  store_keyed s -> store_keyed (fst (updateProject s id updates now)).
Proof.
  unfold store_keyed, updateProject. intros (Hp & Hrest).
  destruct (JsMap.get (projects s) id) as [p|] eqn:E; simpl; [|tauto].
  split; [|exact Hrest].
  apply keyed_set; [|assumption]. simpl. eapply keyed_get; eassumption.
Qed.

Lemma markReminderComplete_keyed s id :
  store_keyed s -> store_keyed (fst (markReminderComplete s id)).
Proof.
  unfold store_keyed, markReminderComplete.
  intros (Hp & Hph & Hd & Hm & Ht & Hr & Hc).
  destruct (JsMap.get (reminders s) id) as [r|] eqn:E; simpl; [|tauto].
  repeat split; try assumption.
  apply keyed_set; [|assumption]. simpl. eapply keyed_get; eassumption.
Qed.

Lemma exec_keyed s op : store_keyed s -> store_keyed (exec s op).
Proof.
  intros H. destruct op; simpl; try assumption;
    try (apply updateProject_keyed; assumption);
    try (apply markReminderComplete_keyed; assumption);
    destruct H as (Hp & Hph & Hd & Hm & Ht & Hr & Hc);
    unfold store_keyed; simpl;
    repeat split; try assumption;
    try (apply keyed_set; [reflexivity | assumption]);
    try (apply keyed_remove; assumption).
Qed.

Lemma initializeData_keyed clk : store_keyed (initializeData clk).
Proof.
  unfold store_keyed, keyed. simpl. repeat split; repeat constructor.
Qed.

Lemma run_keyed ops : forall s, store_keyed s -> store_keyed (run s ops).
Proof.
  induction ops as [|op ops IH]; simpl; intros s Hs; [assumption|].
  apply IH, exec_keyed, Hs.
Qed.

(** Whatever calls are made on the store the constructor builds, with
    whatever identifiers and clock readings, every map holds each key once
    and every entity sits under its own [id]: [getProject id] can only answer
    a project whose [id] is [id], and the list view of projects never shows
    an identifier twice. *)
Theorem reachable_store_identifiers clk ops :
  let s := run (initializeData clk) ops in
  store_wf s /\ store_keyed s /\
  (forall id, match getProject s id with
              | Some p => Project.id p = id
              | None => True
              end) /\
  (forall clock,
     NoDup (map (fun row => Project.id (pwc_project row)) (getProjects s clock))).
Proof.
  cbv zeta.
  assert (Hwf : store_wf (run (initializeData clk) ops))
    by apply run_wf, initializeData_wf.
  assert (Hk : store_keyed (run (initializeData clk) ops))
    by apply run_keyed, initializeData_keyed.
  split; [exact Hwf|]. split; [exact Hk|]. split.
  - intros id. unfold getProject.
    destruct (JsMap.get (projects (run (initializeData clk) ops)) id) eqn:E; auto.
    destruct Hk as (Hp & _). eapply keyed_get; eassumption.
  - intros clock. destruct Hk as (Hp & _). destruct Hwf as (Hw & _).
    rewrite <- (map_map pwc_project Project.id).
    destruct (getProjects_rows (run (initializeData clk) ops) clock) as (-> & _).
    rewrite (keyed_values_ids Project.id) by assumption. exact Hw.
Qed.

(** ** What the calls never do *)

Lemma run_invariant (P : Store -> Prop) :
  (forall s op, fresh s op = true -> P s -> P (exec s op)) ->
  forall ops s, fresh_run s ops = true -> P s -> P (run s ops).
Proof.
  intros Hstep. induction ops as [|op ops IH]; simpl; intros s Hf Hs; [assumption|].
  apply andb_true_iff in Hf. destruct Hf as [Hop Hrest].
  apply IH; [assumption|]. now apply Hstep.
Qed.

Ltac exec_cases s op :=
  destruct op; simpl;
  try match goal with
      | |- context [updateProject s ?id ?u ?n] =>
          unfold updateProject; destruct (JsMap.get (projects s) id); simpl
      | |- context [markReminderComplete s ?id] =>
          unfold markReminderComplete;
          destruct (JsMap.get (reminders s) id) eqn:?; simpl
      end.

Ltac fresh_other_key H :=
  simpl in H; apply negb_true_iff, has_false_get in H;
  rewrite get_set_ne by congruence.

(** The interface has no call that changes or removes a test result, a
    calendar event or a material test: once stored, each is found unchanged
    after every sequence of calls (identifiers drawn by create calls being
    fresh). *)
Theorem results_events_tests_persist s ops :
  fresh_run s ops = true ->
  (forall id r, JsMap.get (testResults s) id = Some r ->
                JsMap.get (testResults (run s ops)) id = Some r) /\
  (forall id e, JsMap.get (calendarEvents s) id = Some e ->
                JsMap.get (calendarEvents (run s ops)) id = Some e) /\
  (forall id t, JsMap.get (materialTests s) id = Some t ->
                JsMap.get (materialTests (run s ops)) id = Some t).
Proof.
  intros Hf. repeat split; intros id x Hx.
  - apply (run_invariant (fun s => JsMap.get (testResults s) id = Some x));
      try assumption.
    clear. intros s op Hfr H. exec_cases s op; try assumption.
    now fresh_other_key Hfr.
  - apply (run_invariant (fun s => JsMap.get (calendarEvents s) id = Some x));
      try assumption.
    clear. intros s op Hfr H. exec_cases s op; try assumption.
    now fresh_other_key Hfr.
  - apply (run_invariant (fun s => JsMap.get (materialTests s) id = Some x));
      try assumption.
    clear. intros s op Hfr H. exec_cases s op; try assumption.
    now fresh_other_key Hfr.
Qed.

Lemma results_events_tests_persist_witness :
  JsMap.get (materialTests (run store1 sampleOps)) "test-3"
  = JsMap.get (materialTests store1) "test-3".
Proof.
  destruct (results_events_tests_persist store1 sampleOps eq_refl) as (_ & _ & Ht).
  exact (Ht "test-3" _ eq_refl).
Defined.

(** A call touches only the entity it names.  A stored photo survives every
    call unchanged except the delete under its identifier, which removes it;
    the same holds for documents; a stored project survives every call
    unchanged except the update and the delete under its identifier. *)
Theorem exec_frame s op id :
  fresh s op = true ->
  (forall p, JsMap.get (photos s) id = Some p ->
     JsMap.get (photos (exec s op)) id = Some p \/
     (op = DeletePhoto id /\ JsMap.get (photos (exec s op)) id = None)) /\
  (forall d, JsMap.get (documents s) id = Some d ->
     JsMap.get (documents (exec s op)) id = Some d \/
     (op = DeleteDocument id /\ JsMap.get (documents (exec s op)) id = None)) /\
  (forall p, getProject s id = Some p ->
     getProject (exec s op) id = Some p \/
     (op = DeleteProject id /\ getProject (exec s op) id = None) \/
     (exists updates now,
        op = UpdateProject id updates now /\
        getProject (exec s op) id = Some (spreadProject p updates now))).
Proof.
  intros Hfr. unfold getProject. split; [|split]; intros x Hx.
  - destruct op; simpl; try (left; assumption).
    + unfold updateProject. destruct (JsMap.get (projects s) id0); now left.
    + left. now fresh_other_key Hfr.
    + destruct (String.eqb_spec id0 id) as [->|Hne].
      * right. split; [reflexivity | apply get_remove_eq].
      * left. now rewrite get_remove_ne.
    + unfold markReminderComplete. destruct (JsMap.get (reminders s) id0); now left.
  - destruct op; simpl; try (left; assumption).
    + unfold updateProject. destruct (JsMap.get (projects s) id0); now left.
    + left. now fresh_other_key Hfr.
    + destruct (String.eqb_spec id0 id) as [->|Hne].
      * right. split; [reflexivity | apply get_remove_eq].
      * left. now rewrite get_remove_ne.
    + unfold markReminderComplete. destruct (JsMap.get (reminders s) id0); now left.
  - destruct op; simpl; try (left; assumption).
    + left. now fresh_other_key Hfr.
    + unfold updateProject.
      destruct (String.eqb_spec id0 id) as [->|Hne].
      * rewrite Hx. simpl. right. right. exists updates, now.
        split; [reflexivity | apply get_set_eq].
      * left. destruct (JsMap.get (projects s) id0); simpl; [|assumption].
        now rewrite get_set_ne.
    + destruct (String.eqb_spec id0 id) as [->|Hne].
      * right. left. split; [reflexivity | apply get_remove_eq].
      * left. now rewrite get_remove_ne.
    + unfold markReminderComplete. destruct (JsMap.get (reminders s) id0); now left.
Qed.

Lemma exec_frame_witness :
  JsMap.get (photos (exec storeP (DeletePhoto "ph-2"))) "ph-1"
  = JsMap.get (photos storeP) "ph-1".
Proof.
  destruct (exec_frame storeP (DeletePhoto "ph-2") "ph-1" eq_refl) as (Hph & _).
  destruct (Hph _ eq_refl) as [H|[H _]].
  - exact H.
  - discriminate H.
Defined.

(** A reminder is never removed, and the only field a call can change is
    [completed], and only to [true]: after every sequence of calls the
    reminder found under the identifier is the stored one or the stored one
    marked complete. *)
Theorem reminder_only_completes s ops id r :
  fresh_run s ops = true ->
  JsMap.get (reminders s) id = Some r ->
  JsMap.get (reminders (run s ops)) id = Some r \/
  JsMap.get (reminders (run s ops)) id = Some (completeReminder r).
Proof.
  intros Hf Hr.
  apply (run_invariant
           (fun s => JsMap.get (reminders s) id = Some r \/
                     JsMap.get (reminders s) id = Some (completeReminder r)));
    [|assumption|now left].
  clear. intros s op Hfr H. exec_cases s op; try assumption.
  - destruct H as [H|H]; [left|right]; now fresh_other_key Hfr.
  - destruct (String.eqb_spec id0 id) as [->|Hne].
    + rewrite get_set_eq.
      destruct H as [H|H]; rewrite H in *;
        match goal with E : Some _ = Some _ |- _ => injection E as <- end;
        now right.
    + now rewrite get_set_ne.
Qed.

Lemma reminder_only_completes_witness :
  JsMap.get (reminders (run store0 sampleOps)) "rem-1"
  = Some (completeReminder
            (Reminder.mk "rem-1" "proj-1" "599 Inspection Due" "599"
               (1700000000000 + 24 * 60 * 60 * 1000) (Some false) 1700000000000)).
Proof.
  destruct (reminder_only_completes store0 sampleOps "rem-1" _ eq_refl eq_refl)
    as [H|H].
  - discriminate H.
  - exact H.
Defined.

(** ** Reminders and the next-inspection label *)

(** A project has no next-inspection label exactly when it has no reminder
    that is not completed; reminders of other projects and completed ones
    play no part. *)
Theorem getNextInspection_none_iff s projectId now :
  getNextInspection s projectId now = None <->
  (forall r, In r (JsMap.values (reminders s)) ->
             Reminder.projectId r = projectId ->
             truthy (Reminder.completed r) = true).
Proof.
  split.
  - intros Hnone r Hin Hp.
    destruct (truthy (Reminder.completed r)) eqn:Hc; [reflexivity|].
    exfalso.
    destruct (getNextInspection_first s projectId now) as (next & _ & _ & _ & _ & Hl).
    { exists r. auto. }
    rewrite Hl in Hnone. cbv zeta in Hnone.
    destruct (_ =? 0); [discriminate|].
    destruct (_ =? 1); [discriminate|].
    destruct (1 <? _); discriminate.
  - intros Hall. unfold getNextInspection.
    set (cmp := fun a b => Reminder.scheduledFor a - Reminder.scheduledFor b).
    set (l := filter _ (JsMap.values (reminders s))).
    destruct (sort cmp l) as [|x rest] eqn:E; [reflexivity|].
    exfalso.
    assert (Hx : In x l) by (apply (sort_In cmp); rewrite E; now left).
    unfold l in Hx. apply filter_In in Hx. destruct Hx as [Hin Hb].
    apply andb_true_iff in Hb. destruct Hb as [Hp Hc].
    apply String.eqb_eq in Hp. apply negb_true_iff in Hc.
    rewrite (Hall x Hin Hp) in Hc. discriminate.
Qed.

Lemma getNextInspection_none_iff_witness :
  getNextInspection store1 "proj-1" sampleNow = None.
Proof.
  apply (getNextInspection_none_iff store1 "proj-1" sampleNow).
  intros r [<-|[]] _. reflexivity.
Defined.

Lemma countIf_split {A : Type} (f : A -> bool) (l1 l2 : list A) (x : A) :
  countIf f (l1 ++ x :: l2) =
  (countIf f l1 + (if f x then 1 else 0) + countIf f l2)%nat.
Proof. rewrite countIf_app. simpl. lia. Qed.

(** Completing a reminder that was not completed lowers [pendingInspections]
    by exactly one; completing a completed one leaves it as it was.  The
    other three counters do not move, and no entry appears in the list of
    active reminders that was not there before. *)
Theorem markReminderComplete_pendingInspections s id r :
  JsMap.get (reminders s) id = Some r ->
  let s' := fst (markReminderComplete s id) in
  (pendingInspections (getProjectStats s')
   + (if truthy (Reminder.completed r) then 0 else 1))%nat
  = pendingInspections (getProjectStats s) /\
  activeProjects (getProjectStats s') = activeProjects (getProjectStats s) /\
  photosCount (getProjectStats s') = photosCount (getProjectStats s) /\
  documentsCount (getProjectStats s') = documentsCount (getProjectStats s) /\
  (forall v, In v (getActiveReminders s') -> In v (getActiveReminders s)).
Proof.
  intros Hget. cbv zeta.
  destruct (set_present_split (reminders s) id r (completeReminder r) Hget)
    as (m1 & m2 & Hm & Hset).
  assert (Hs' : fst (markReminderComplete s id) =
                with_reminders s (m1 ++ (id, completeReminder r) :: m2)%list).
  { unfold markReminderComplete. rewrite Hget. simpl. now rewrite Hset. }
  rewrite Hs'. split; [|split; [|split; [|split]]]; try reflexivity.
  - unfold getProjectStats. simpl. rewrite Hm.
    rewrite !length_filter_countIf. unfold JsMap.values.
    rewrite !map_app. simpl. rewrite !countIf_split. simpl.
    destruct (truthy (Reminder.completed r)); simpl; lia.
  - intros v Hv. unfold getActiveReminders in *. simpl in *.
    apply sort_In in Hv. apply sort_In.
    apply in_map_iff in Hv. destruct Hv as (x & Hx & Hin).
    apply in_map_iff. exists x. split; [assumption|].
    apply filter_In in Hin. destruct Hin as [Hin Hact].
    apply filter_In. split; [|assumption].
    rewrite Hm. unfold JsMap.values in *. rewrite map_app in *. simpl in *.
    apply in_app_iff in Hin. apply in_app_iff.
    destruct Hin as [Hin|[Hin|Hin]]; auto.
    + subst x. simpl in Hact. discriminate.
    + right. now right.
Qed.

Lemma markReminderComplete_pendingInspections_witness :
  S (pendingInspections (getProjectStats store1))
  = pendingInspections (getProjectStats store0).
Proof.
  destruct (markReminderComplete_pendingInspections store0 "rem-1" _ eq_refl)
    as (H & _).
  simpl truthy in H. cbv iota in H. unfold store1.
  rewrite <- H. apply eq_sym, Nat.add_1_r.
Defined.

(** A reminder created under a fresh identifier is stored with the
    [completed] value of the input, no default being filled in.  Unless that
    value is [true] the reminder is pending: [pendingInspections] grows by
    one and the reminder is listed among the active ones. *)
Theorem createReminder_pending s reminder id now :
  JsMap.get (reminders s) id = None ->
  let s' := fst (createReminder s reminder id now) in
  let r := snd (createReminder s reminder id now) in
  JsMap.get (reminders s') id = Some r /\
  Reminder.completed r = InsertReminder.completed reminder /\
  pendingInspections (getProjectStats s') =
    (pendingInspections (getProjectStats s)
     + if truthy (InsertReminder.completed reminder) then 0 else 1)%nat /\
  (truthy (InsertReminder.completed reminder) = false ->
   exists v, In v (getActiveReminders s') /\ rv_reminder v = r) /\
  (truthy (InsertReminder.completed reminder) = true ->
   forall v, In v (getActiveReminders s') -> rv_reminder v <> r).
Proof.
  intros Hfresh. cbv zeta. unfold createReminder. simpl.
  split; [apply get_set_eq|]. split; [reflexivity|]. split; [|split].
  - unfold getProjectStats. simpl. rewrite !length_filter_countIf.
    rewrite values_set_fresh by assumption. rewrite countIf_app. simpl.
    destruct (truthy (InsertReminder.completed reminder)); simpl; lia.
  - intros Hopen. unfold getActiveReminders. simpl.
    rewrite values_set_fresh by assumption.
    eexists. split.
    + apply sort_In. apply in_map. apply filter_In. split.
      * apply in_app_iff. right. left. reflexivity.
      * simpl. now rewrite Hopen.
    + reflexivity.
  - intros Hdone v Hv Heq. unfold getActiveReminders in Hv.
    apply sort_In, in_map_iff in Hv. destruct Hv as (x & <- & Hin).
    apply filter_In in Hin. destruct Hin as [_ Hact]. simpl in Heq.
    rewrite Heq in Hact. simpl in Hact. rewrite Hdone in Hact. discriminate.
Qed.

Lemma createReminder_pending_witness :
  pendingInspections
    (getProjectStats
       (fst (createReminder store0
               (InsertReminder.mk "proj-1" "SW3P walk" "sw3p" 1700000500000 None)
               "rem-2" 1700000000005)))
  = S (pendingInspections (getProjectStats store0)).
Proof.
  destruct (createReminder_pending store0
              (InsertReminder.mk "proj-1" "SW3P walk" "sw3p" 1700000500000 None)
              "rem-2" 1700000000005 eq_refl)
    as (_ & _ & H & _).
  rewrite H. apply Nat.add_1_r.
Defined.

(** ** Per-project lists *)

(** An element that the comparator puts strictly in front of every element
    of the list heads the sorted list when it is appended. *)
Lemma sort_append_first {A : Type} (cmp : A -> A -> Z) (l : list A) (x : A) :
  (forall y, In y l -> 0 < cmp y x) ->
  sort cmp (l ++ [x]) = x :: sort cmp l.
Proof.
  induction l as [|y l IH]; intros H; [reflexivity|].
  simpl. rewrite IH by (intros z Hz; apply H; now right).
  simpl. destruct (Z.leb_spec (cmp y x) 0) as [Hle|Hgt]; [|reflexivity].
  specialize (H y (or_introl eq_refl)). lia.
Qed.

Lemma filter_snoc {A : Type} (f : A -> bool) (l : list A) (x : A) :
  filter f (l ++ [x]) = (filter f l ++ if f x then [x] else [])%list.
Proof. rewrite filter_app. reflexivity. Qed.

(** A document uploaded later than every document its project already has is
    the first entry of the project's document list, the rest following as
    before; the lists of the other projects do not change.  The same holds
    for a photo whose [takenAt] (given, or else the clock reading) is later
    than that of every photo of its project. *)
Theorem newest_entry_listed_first s id :
  (forall document now,
     JsMap.get (documents s) id = None ->
     (forall d, In d (JsMap.values (documents s)) ->
                Document.projectId d = InsertDocument.projectId document ->
                Document.uploadedAt d < now) ->
     let s' := fst (createDocument s document id now) in
     let d := snd (createDocument s document id now) in
     getProjectDocuments s' (InsertDocument.projectId document) =
       d :: getProjectDocuments s (InsertDocument.projectId document) /\
     (forall pid, pid <> InsertDocument.projectId document ->
                  getProjectDocuments s' pid = getProjectDocuments s pid)) /\
  (forall photo now1 now2,
     JsMap.get (photos s) id = None ->
     let s' := fst (createPhoto s photo id now1 now2) in
     let p := snd (createPhoto s photo id now1 now2) in
     (forall q, In q (JsMap.values (photos s)) ->
                Photo.projectId q = InsertPhoto.projectId photo ->
                Photo.takenAt q < Photo.takenAt p) ->
     getProjectPhotos s' (InsertPhoto.projectId photo) =
       p :: getProjectPhotos s (InsertPhoto.projectId photo) /\
     (forall pid, pid <> InsertPhoto.projectId photo ->
                  getProjectPhotos s' pid = getProjectPhotos s pid)).
Proof.
  split.
  - intros document now Hfresh Hlate. cbv zeta.
    unfold getProjectDocuments, createDocument. simpl.
    rewrite values_set_fresh by assumption. split.
    + rewrite filter_snoc. simpl. rewrite String.eqb_refl.
      apply sort_append_first. intros y Hy.
      apply filter_In in Hy. destruct Hy as [Hin Hp].
      apply String.eqb_eq in Hp. specialize (Hlate y Hin Hp). simpl. lia.
    + intros pid Hne. rewrite filter_snoc. simpl.
      destruct (String.eqb_spec (InsertDocument.projectId document) pid);
        [congruence|]. now rewrite app_nil_r.
  - intros photo now1 now2 Hfresh. cbv zeta. intros Hlate.
    unfold getProjectPhotos, createPhoto in *. simpl in *.
    rewrite values_set_fresh by assumption. split.
    + rewrite filter_snoc. simpl. rewrite String.eqb_refl.
      apply sort_append_first. intros y Hy.
      apply filter_In in Hy. destruct Hy as [Hin Hp].
      apply String.eqb_eq in Hp. specialize (Hlate y Hin Hp). simpl. lia.
    + intros pid Hne. rewrite filter_snoc. simpl.
      destruct (String.eqb_spec (InsertPhoto.projectId photo) pid);
        [congruence|]. now rewrite app_nil_r.
Qed.

Lemma newest_entry_listed_first_witness :
  map Photo.id
    (getProjectPhotos
       (fst (createPhoto storeP
               (InsertPhoto.mk "proj-1" "east.jpg" None None None None)
               "ph-3" 1700000000900 1700000000901))
       "proj-1")
  = "ph-3" :: map Photo.id (getProjectPhotos storeP "proj-1").
Proof.
  destruct (newest_entry_listed_first storeP "ph-3") as (_ & Hph).
  destruct (Hph (InsertPhoto.mk "proj-1" "east.jpg" None None None None)
              1700000000900 1700000000901 eq_refl)
    as (Hfirst & _).
  - intros q [<-|[<-|[]]] _; simpl; lia.
  - simpl InsertPhoto.projectId in Hfirst. rewrite Hfirst. reflexivity.
Defined.

(** The photo and document counts of the list view agree with the
    per-project lists, and a photo created under a fresh identifier raises
    the count of its own project by one and of no other. *)
Theorem createPhoto_photoCount s photo id now1 now2 clock :
  JsMap.get (photos s) id = None ->
  let s' := fst (createPhoto s photo id now1 now2) in
  Forall (fun row =>
            let pid := Project.id (pwc_project row) in
            photoCount row = List.length (getProjectPhotos s' pid) /\
            documentCount row = List.length (getProjectDocuments s' pid) /\
            photoCount row =
              (List.length (getProjectPhotos s pid)
               + if String.eqb (InsertPhoto.projectId photo) pid then 1 else 0)%nat /\
            documentCount row = List.length (getProjectDocuments s pid))
    (getProjects s' clock).
Proof.
  intros Hfresh. cbv zeta. apply Forall_forall. intros row Hrow.
  unfold getProjects in Hrow. apply in_map_iff in Hrow.
  destruct Hrow as (p & <- & _). simpl.
  unfold getProjectPhotos, getProjectDocuments. rewrite !sort_length. simpl.
  repeat split.
  rewrite values_set_fresh by assumption. rewrite filter_snoc, length_app. simpl.
  destruct (String.eqb (InsertPhoto.projectId photo) (Project.id p)); reflexivity.
Qed.

Lemma createPhoto_photoCount_witness :
  Forall (fun row =>
            photoCount row =
              (List.length (getProjectPhotos store0 (Project.id (pwc_project row)))
               + if String.eqb "proj-2" (Project.id (pwc_project row)) then 1 else 0)%nat)
    (getProjects
       (fst (createPhoto store0
               (InsertPhoto.mk "proj-2" "deck.jpg" None None None None)
               "ph-1" 1700000000900 1700000000901))
       (fun _ => sampleNow)).
Proof.
  eapply Forall_impl;
    [| exact (createPhoto_photoCount store0
                (InsertPhoto.mk "proj-2" "deck.jpg" None None None None)
                "ph-1" 1700000000900 1700000000901 (fun _ => sampleNow) eq_refl)].
  intros row (_ & _ & H & _). exact H.
Defined.

(** ** Material tests *)

(** A material test created under a fresh identifier is appended to the list
    of all tests and to the list of its own category, and to the list of no
    other category. *)
Theorem createMaterialTest_listed s test id now1 now2 :
  JsMap.get (materialTests s) id = None ->
  let s' := fst (createMaterialTest s test id now1 now2) in
  let t := snd (createMaterialTest s test id now1 now2) in
  getMaterialTests s' = (getMaterialTests s ++ [t])%list /\
  getMaterialTestsByCategory s' (InsertMaterialTest.category test) =
    (getMaterialTestsByCategory s (InsertMaterialTest.category test) ++ [t])%list /\
  (forall category, category <> InsertMaterialTest.category test ->
     getMaterialTestsByCategory s' category = getMaterialTestsByCategory s category).
Proof.
  intros Hfresh. cbv zeta.
  unfold getMaterialTests, getMaterialTestsByCategory, createMaterialTest. simpl.
  rewrite values_set_fresh by assumption. split; [reflexivity|]. split.
  - rewrite filter_snoc. simpl. now rewrite String.eqb_refl.
  - intros category Hne. rewrite filter_snoc. simpl.
    destruct (String.eqb_spec (InsertMaterialTest.category test) category);
      [congruence|]. now rewrite app_nil_r.
Qed.

Lemma createMaterialTest_listed_witness :
  map MaterialTest.id
    (getMaterialTestsByCategory
       (fst (createMaterialTest store0
               (InsertMaterialTest.mk "Marshall Stability" "asphalt" "Min 1800 lb")
               "test-4" 1700000000900 1700000000900))
       "asphalt")
  = ["test-4"].
Proof.
  destruct (createMaterialTest_listed store0
              (InsertMaterialTest.mk "Marshall Stability" "asphalt" "Min 1800 lb")
              "test-4" 1700000000900 1700000000900 eq_refl)
    as (_ & Hcat & _).
  simpl InsertMaterialTest.category in Hcat. rewrite Hcat. reflexivity.
Defined.

(** A test is in the list of a category exactly when it is stored and the
    category is its own. *)
Lemma getMaterialTestsByCategory_member s category t :
  In t (getMaterialTestsByCategory s category) <->
  In t (getMaterialTests s) /\ MaterialTest.category t = category.
Proof.
  unfold getMaterialTestsByCategory, getMaterialTests.
  rewrite filter_In, String.eqb_eq. tauto.
Qed.

(** ** Orphans after a project deletion *)

(** After [deleteProject id] the test results, active reminders and calendar
    events that reference [id] are still listed, and each is shown with the
    project name ["Unknown Project"]. *)
Theorem deleteProject_orphans_unknown (getMonth getFullYear : Z -> Z) s id :
  let s' := fst (deleteProject s id) in
  map trv_result (getTestResults s') = map trv_result (getTestResults s) /\
  map rv_reminder (getActiveReminders s') = map rv_reminder (getActiveReminders s) /\
  (forall month year,
     map cev_event (getCalendarEvents getMonth getFullYear s' month year) =
     map cev_event (getCalendarEvents getMonth getFullYear s month year)) /\
  (forall v, In v (getTestResults s') ->
             TestResult.projectId (trv_result v) = id ->
             trv_projectName v = "Unknown Project") /\
  (forall v, In v (getActiveReminders s') ->
             Reminder.projectId (rv_reminder v) = id ->
             rv_projectName v = "Unknown Project") /\
  (forall month year v,
     In v (getCalendarEvents getMonth getFullYear s' month year) ->
     CalendarEvent.projectId (cev_event v) = id ->
     cev_projectName v = "Unknown Project").
Proof.
  rewrite deleteProject_store. cbv zeta. simpl.
  split; [now rewrite !getTestResults_entities|].
  split.
  { unfold getActiveReminders. simpl.
    set (act := filter _ (JsMap.values (reminders s))).
    generalize act. clear. intros act.
    induction act as [|r act IH]; [reflexivity|]. simpl.
    set (c := fun a b => Reminder.scheduledFor (rv_reminder a)
                         - Reminder.scheduledFor (rv_reminder b)) in *.
    assert (Hins : forall x y l l',
               Reminder.scheduledFor (rv_reminder x)
               = Reminder.scheduledFor (rv_reminder y) ->
               map rv_reminder l = map rv_reminder l' ->
               rv_reminder x = rv_reminder y ->
               map rv_reminder (insert c x l) = map rv_reminder (insert c y l')).
    { intros x y l. induction l as [|a l IHl]; intros [|b l'] Hk Hm Hxy;
        simpl in *; try discriminate; [now rewrite Hxy|].
      injection Hm as Hab Hm. unfold c at 1 3.
      rewrite Hk, Hab.
      destruct (_ <=? 0); simpl; [now rewrite Hxy, Hab, Hm|].
      rewrite Hab. f_equal. now apply IHl. }
    apply Hins; auto. }
  split.
  { intros month year. now rewrite !getCalendarEvents_entities. }
  split; [|split].
  - intros v Hv Hid. unfold getTestResults in Hv. simpl in Hv.
    apply in_map_iff in Hv. destruct Hv as (r & <- & _). simpl in *.
    now rewrite Hid, get_remove_eq.
  - intros v Hv Hid. unfold getActiveReminders in Hv. simpl in Hv.
    apply sort_In, in_map_iff in Hv. destruct Hv as (r & <- & _). simpl in *.
    now rewrite Hid, get_remove_eq.
  - intros month year v Hv Hid. unfold getCalendarEvents in Hv. simpl in Hv.
    apply in_map_iff in Hv. destruct Hv as (e & <- & _). simpl in *.
    now rewrite Hid, get_remove_eq.
Qed.

Lemma deleteProject_orphans_unknown_witness :
  exists v,
    In v (getActiveReminders (fst (deleteProject store0 "proj-1"))) /\
    Reminder.id (rv_reminder v) = "rem-1" /\
    rv_projectName v = "Unknown Project".
Proof.
  destruct (deleteProject_orphans_unknown (fun _ => 10) (fun _ => 2023)
              store0 "proj-1")
    as (_ & _ & _ & _ & Hr & _).
  exists {| rv_reminder :=
              Reminder.mk "rem-1" "proj-1" "599 Inspection Due" "599"
                (1700000000000 + 24 * 60 * 60 * 1000) (Some false) 1700000000000;
            rv_projectName := "Unknown Project" |}.
  split; [left; reflexivity|]. split; [reflexivity|].
  apply Hr; [left; reflexivity | reflexivity].
Defined.

(** ** Calendar events *)

(** The month/year filter applies only when both are given: with either one
    missing every stored event is returned, in store order.  With both, the
    events returned are exactly the stored ones whose date falls in that
    month and year.  Each entry carries the referenced project's name, or
    ["Unknown Project"] when the project is missing or its name is empty. *)
Theorem getCalendarEvents_filter (getMonth getFullYear : Z -> Z) s :
  (forall month year,
     month = None \/ year = None ->
     map cev_event (getCalendarEvents getMonth getFullYear s month year) =
     JsMap.values (calendarEvents s)) /\
  (forall m y e,
     In e (map cev_event (getCalendarEvents getMonth getFullYear s (Some m) (Some y)))
     <-> In e (JsMap.values (calendarEvents s)) /\
         getMonth (CalendarEvent.date e) = m /\
         getFullYear (CalendarEvent.date e) = y) /\
  (forall month year,
     Forall (fun v =>
               cev_projectName v =
                 displayName
                   (option_map Project.name
                      (getProject s (CalendarEvent.projectId (cev_event v))))
                   "Unknown Project")
       (getCalendarEvents getMonth getFullYear s month year)).
Proof.
  split; [|split].
  - intros month year H. rewrite getCalendarEvents_entities.
    destruct H as [-> | ->]; [reflexivity | now destruct month].
  - intros m y e. rewrite getCalendarEvents_entities, filter_In.
    rewrite andb_true_iff, !Z.eqb_eq. tauto.
  - intros month year. apply Forall_forall. intros v Hv.
    unfold getCalendarEvents in Hv. apply in_map_iff in Hv.
    destruct Hv as (e & <- & _). simpl. apply or_default_displayName.
Qed.

Lemma getCalendarEvents_filter_witness :
  map cev_event
    (getCalendarEvents (fun _ => 10) (fun _ => 2023) storeE (Some 3) None)
  = JsMap.values (calendarEvents storeE).
Proof.
  destruct (getCalendarEvents_filter (fun _ => 10) (fun _ => 2023) storeE)
    as (Hall & _).
  apply Hall. now right.
Defined.

(** ** Route handlers *)

Lemma set_set {V : Type} (m : JsMap.t V) k v v' :
  JsMap.set (JsMap.set m k v) k v' = JsMap.set m k v'.
Proof.
  induction m as [|[k0 v0] m IH]; simpl.
  - now rewrite String.eqb_refl.
  - destruct (String.eqb k0 k) eqn:E; simpl; rewrite E; [reflexivity|].
    now rewrite IH.
Qed.

(** [DELETE /api/projects/:id] answers 204 when the project existed and 404
    when it did not, in which case the store is left as it was.  After the
    call, whatever its answer, [GET /api/projects/:id] answers 404 and a
    second delete answers 404 without changing the store. *)
Theorem routeDeleteProject_answers s id :
  let s' := fst (routeDeleteProject s id) in
  let r := snd (routeDeleteProject s id) in
  (getProject s id <> None -> r = noContent) /\
  (getProject s id = None -> r = notFound "Project not found" /\ s' = s) /\
  routeGetProject s' id = notFound "Project not found" /\
  routeDeleteProject s' id = (s', notFound "Project not found").
Proof.
  cbv zeta.
  assert (Hgone : getProject (fst (routeDeleteProject s id)) id = None).
  { unfold routeDeleteProject. rewrite deleteProject_store.
    destruct (negb _); unfold getProject; simpl; apply get_remove_eq. }
  assert (Habsent : forall s0, getProject s0 id = None ->
            routeDeleteProject s0 id = (s0, notFound "Project not found")).
  { intros s0 H0. unfold routeDeleteProject. rewrite deleteProject_store.
    unfold getProject in H0. unfold JsMap.has. rewrite H0. simpl.
    now rewrite remove_absent, with_projects_same. }
  split; [|split; [|split]].
  - intros Hsome. unfold routeDeleteProject. rewrite deleteProject_store.
    unfold getProject in Hsome. unfold JsMap.has.
    destruct (JsMap.get (projects s) id); [reflexivity | congruence].
  - intros Hnone. rewrite (Habsent s Hnone). now split.
  - unfold routeGetProject. now rewrite Hgone.
  - now apply Habsent.
Qed.

Lemma routeDeleteProject_answers_witness :
  snd (routeDeleteProject store0 "proj-3") = noContent /\
  snd (routeDeleteProject store0 "proj-7") = notFound "Project not found".
Proof.
  destruct (routeDeleteProject_answers store0 "proj-3") as (Hok & _).
  destruct (routeDeleteProject_answers store0 "proj-7") as (_ & Hmiss & _).
  split; [apply Hok; discriminate | apply (Hmiss eq_refl)].
Defined.

Lemma In_values_remove {V : Type} (idOf : V -> string) (m : JsMap.t V) k v :
  keyed idOf m ->
  In v (JsMap.values (JsMap.remove m k)) <-> In v (JsMap.values m) /\ idOf v <> k.
Proof.
  intros Hk. unfold keyed in Hk. rewrite Forall_forall in Hk.
  unfold JsMap.values, JsMap.remove. rewrite !in_map_iff. split.
  - intros (e & <- & He). apply filter_In in He. destruct He as [He Hne].
    split; [now exists e|]. rewrite (Hk e He).
    apply negb_true_iff in Hne. now apply String.eqb_neq in Hne.
  - intros ((e & <- & He) & Hne). exists e. split; [reflexivity|].
    apply filter_In. split; [assumption|].
    apply negb_true_iff, String.eqb_neq. now rewrite <- (Hk e He).
Qed.

(** [DELETE /api/photos/:id] answers 204 when the photo existed and 404 when
    it did not, leaving the store as it was in the latter case.  After the
    call no project's photo list contains a photo with that [id], and every
    other photo is listed as before.  [DELETE /api/documents/:id] behaves the
    same way on documents. *)
Theorem routeDelete_photo_document s id :
  (keyed Photo.id (photos s) ->
   let s' := fst (routeDeletePhoto s id) in
   let r := snd (routeDeletePhoto s id) in
   (JsMap.get (photos s) id <> None -> r = noContent) /\
   (JsMap.get (photos s) id = None -> r = notFound "Photo not found" /\ s' = s) /\
   (forall pid p, In p (getProjectPhotos s' pid) <->
                  In p (getProjectPhotos s pid) /\ Photo.id p <> id)) /\
  (keyed Document.id (documents s) ->
   let s' := fst (routeDeleteDocument s id) in
   let r := snd (routeDeleteDocument s id) in
   (JsMap.get (documents s) id <> None -> r = noContent) /\
   (JsMap.get (documents s) id = None ->
    r = notFound "Document not found" /\ s' = s) /\
   (forall pid d, In d (getProjectDocuments s' pid) <->
                  In d (getProjectDocuments s pid) /\ Document.id d <> id)).
Proof.
  split; intros Hk; cbv zeta.
  - unfold routeDeletePhoto, deletePhoto, JsMap.delete, JsMap.has.
    split; [|split].
    + intros Hsome. destruct (JsMap.get (photos s) id); [reflexivity | congruence].
    + intros Hnone. rewrite Hnone. simpl.
      now rewrite remove_absent, with_photos_same.
    + intros pid p.
      assert (Hs' : photos (fst (if negb match JsMap.get (photos s) id with
                                         | Some _ => true | None => false end
                                 then (with_photos s (JsMap.remove (photos s) id),
                                       notFound "Photo not found")
                                 else (with_photos s (JsMap.remove (photos s) id),
                                       noContent)))
                    = JsMap.remove (photos s) id)
        by (destruct (JsMap.get (photos s) id); reflexivity).
      unfold getProjectPhotos. rewrite Hs', !sort_In, !filter_In.
      rewrite (In_values_remove Photo.id) by assumption. tauto.
  - unfold routeDeleteDocument, deleteDocument, JsMap.delete, JsMap.has.
    split; [|split].
    + intros Hsome. destruct (JsMap.get (documents s) id); [reflexivity | congruence].
    + intros Hnone. rewrite Hnone. simpl.
      now rewrite remove_absent, with_documents_same.
    + intros pid d.
      assert (Hs' : documents (fst (if negb match JsMap.get (documents s) id with
                                            | Some _ => true | None => false end
                                    then (with_documents s (JsMap.remove (documents s) id),
                                          notFound "Document not found")
                                    else (with_documents s (JsMap.remove (documents s) id),
                                          noContent)))
                    = JsMap.remove (documents s) id)
        by (destruct (JsMap.get (documents s) id); reflexivity).
      unfold getProjectDocuments. rewrite Hs', !sort_In, !filter_In.
      rewrite (In_values_remove Document.id) by assumption. tauto.
Qed.

Lemma routeDelete_photo_document_witness :
  snd (routeDeletePhoto storeP "ph-1") = noContent /\
  snd (routeDeleteDocument storeP "doc-9") = notFound "Document not found".
Proof.
  destruct (routeDelete_photo_document storeP "ph-1") as (Hph & _).
  destruct (routeDelete_photo_document storeP "doc-9") as (_ & Hd).
  split.
  - destruct Hph as (Hok & _).
    + unfold keyed. simpl. repeat constructor.
    + apply Hok. discriminate.
  - destruct Hd as (_ & Hmiss & _).
    + unfold keyed. simpl. repeat constructor.
    + apply (Hmiss eq_refl).
Defined.

(** [GET /api/material-tests] always answers 200.  Without a [category]
    parameter, or with an empty one, the body is the list of all tests; with
    a non-empty one it holds exactly the stored tests of that category, which
    for a category no test has is the empty list. *)
Theorem routeGetMaterialTests_category s category :
  res_status (routeGetMaterialTests s category) = 200 /\
  (category = None \/ category = Some "" ->
   res_body (routeGetMaterialTests s category) = MaterialTestsJson (getMaterialTests s)) /\
  (forall c, category = Some c -> c <> "" ->
     exists rows,
       res_body (routeGetMaterialTests s category) = MaterialTestsJson rows /\
       (forall t, In t rows <->
                  In t (getMaterialTests s) /\ MaterialTest.category t = c) /\
       ((forall t, In t (getMaterialTests s) -> MaterialTest.category t <> c) ->
        rows = [])).
Proof.
  split; [reflexivity|]. split.
  - intros [-> | ->]; reflexivity.
  - intros c -> Hne. exists (getMaterialTestsByCategory s c). split; [|split].
    + destruct c; [congruence | reflexivity].
    + intros t. apply getMaterialTestsByCategory_member.
    + intros Hnone. unfold getMaterialTestsByCategory, getMaterialTests in *.
      induction (JsMap.values (materialTests s)) as [|t l IH]; [reflexivity|].
      simpl. destruct (String.eqb_spec (MaterialTest.category t) c) as [Heq|_].
      * exfalso. apply (Hnone t); [now left | assumption].
      * apply IH. intros t' Ht'. apply Hnone. now right.
Qed.

Lemma routeGetMaterialTests_category_witness :
  res_body (routeGetMaterialTests store0 (Some "")) =
    MaterialTestsJson (getMaterialTests store0) /\
  res_body (routeGetMaterialTests store0 (Some "asphalt")) = MaterialTestsJson [].
Proof.
  destruct (routeGetMaterialTests_category store0 (Some "")) as (_ & Hall & _).
  destruct (routeGetMaterialTests_category store0 (Some "asphalt")) as (_ & _ & Hcat).
  split; [apply Hall; now right|].
  destruct (Hcat "asphalt" eq_refl) as (rows & Hbody & _ & Hempty);
    [discriminate|].
  rewrite Hbody. f_equal. apply Hempty.
  intros t [<-|[<-|[<-|[]]]]; discriminate.
Defined.

Lemma In_values_keyed {V : Type} (idOf : V -> string) (m : JsMap.t V) v :
  JsMap.wf m -> keyed idOf m -> In v (JsMap.values m) ->
  JsMap.get m (idOf v) = Some v.
Proof.
  intros Hwf Hk Hin. unfold JsMap.values in Hin. apply in_map_iff in Hin.
  destruct Hin as ([k x] & <- & He). simpl.
  unfold keyed in Hk. rewrite Forall_forall in Hk.
  pose proof (Hk _ He) as Hid. simpl in Hid. rewrite Hid. now apply In_get.
Qed.

(** [PATCH /api/reminders/:id/complete] answers 204 when the reminder exists
    and 404 when it does not, leaving the store as it was in the latter
    case.  The call is idempotent: repeating it gives the same answer and
    the same store.  After the call the list of active reminders holds no
    reminder with that [id]. *)
Theorem routeCompleteReminder_idempotent s id :
  let s1 := fst (routeCompleteReminder s id) in
  let r1 := snd (routeCompleteReminder s id) in
  (JsMap.get (reminders s) id <> None -> r1 = noContent) /\
  (JsMap.get (reminders s) id = None ->
   r1 = notFound "Reminder not found" /\ s1 = s) /\
  routeCompleteReminder s1 id = (s1, r1) /\
  (JsMap.wf (reminders s) -> keyed Reminder.id (reminders s) ->
   forall v, In v (getActiveReminders s1) -> Reminder.id (rv_reminder v) <> id).
Proof.
  cbv zeta. unfold routeCompleteReminder, markReminderComplete.
  destruct (JsMap.get (reminders s) id) as [r|] eqn:E; simpl.
  - split; [reflexivity|]. split; [discriminate|]. split.
    + rewrite get_set_eq. simpl. now rewrite set_set.
    + intros Hwf Hk v Hv Hid.
      unfold getActiveReminders in Hv. simpl in Hv.
      apply sort_In, in_map_iff in Hv. destruct Hv as (x & <- & Hx).
      apply filter_In in Hx. destruct Hx as [Hin Hact]. simpl in Hid.
      apply (In_values_keyed Reminder.id) in Hin.
      * rewrite Hid, get_set_eq in Hin. injection Hin as <-.
        simpl in Hact. discriminate.
      * now apply wf_set.
      * apply keyed_set; [|assumption]. simpl. eapply keyed_get; eassumption.
  - split; [congruence|]. split; [now split|]. split.
    + now rewrite E.
    + intros Hwf Hk v Hv Hid.
      unfold getActiveReminders in Hv.
      apply sort_In, in_map_iff in Hv. destruct Hv as (x & <- & Hx).
      apply filter_In in Hx. destruct Hx as [Hin _]. simpl in Hid.
      apply (In_values_keyed Reminder.id) in Hin; try assumption.
      rewrite Hid in Hin. congruence.
Qed.

Lemma routeCompleteReminder_idempotent_witness :
  snd (routeCompleteReminder store0 "rem-1") = noContent /\
  snd (routeCompleteReminder store0 "rem-9") = notFound "Reminder not found" /\
  Forall (fun v => Reminder.id (rv_reminder v) <> "rem-1")
    (getActiveReminders (fst (routeCompleteReminder storeE "rem-1"))).
Proof.
  destruct (routeCompleteReminder_idempotent store0 "rem-1") as (Hok & _).
  destruct (routeCompleteReminder_idempotent store0 "rem-9") as (_ & Hmiss & _).
  destruct (routeCompleteReminder_idempotent storeE "rem-1") as (_ & _ & _ & Hgone).
  split; [apply Hok; discriminate|]. split; [apply (Hmiss eq_refl)|].
  apply Forall_forall. apply Hgone.
  - unfold JsMap.wf. simpl. repeat constructor; simpl; intuition discriminate.
  - unfold keyed. simpl. repeat constructor.
Defined.

(** ** Ties, renames and newly created entries in the joined views *)

Lemma filter_map_comm {A B : Type} (f : A -> B) (p : B -> bool) (l : list A) :
  filter p (map f l) = map f (filter (fun x => p (f x)) l).
Proof.
  induction l as [|x l IH]; simpl; [reflexivity|].
  destruct (p (f x)); simpl; now rewrite IH.
Qed.

(** Active reminders that are due at the same instant are listed in the
    order in which the store holds them, that is, in order of creation. *)
Theorem getActiveReminders_ties_in_store_order s t :
  filter (fun r => Reminder.scheduledFor r =? t)
    (map rv_reminder (getActiveReminders s))
  = filter (fun r => (Reminder.scheduledFor r =? t)
                     && negb (truthy (Reminder.completed r)))
      (JsMap.values (reminders s)).
Proof.
  unfold getActiveReminders.
  rewrite filter_map_comm, sort_stable.
  - induction (JsMap.values (reminders s)) as [|r l IH]; simpl; [reflexivity|].
    destruct (truthy (Reminder.completed r)); simpl.
    + rewrite andb_false_r. exact IH.
    + rewrite andb_true_r.
      destruct (Reminder.scheduledFor r =? t); simpl; [now rewrite IH | exact IH].
  - intros a b Ha Hb. apply Z.eqb_eq in Ha, Hb. lia.
Qed.

(** After a project is given a new, non-empty name, every test result and
    every active reminder that references it is shown with the new name. *)
Theorem updateProject_rename_shown s id p updates now n :
  getProject s id = Some p ->
  PartialProject.name updates = Some n ->
  n <> "" ->
  let s' := fst (updateProject s id updates now) in
  (forall v, In v (getTestResults s') ->
             TestResult.projectId (trv_result v) = id ->
             trv_projectName v = n) /\
  (forall v, In v (getActiveReminders s') ->
             Reminder.projectId (rv_reminder v) = id ->
             rv_projectName v = n).
Proof.
  unfold getProject. intros Hp Hn Hne. cbv zeta.
  unfold updateProject. rewrite Hp. simpl. split.
  - intros v Hv Hid. unfold getTestResults in Hv. simpl in Hv.
    apply in_map_iff in Hv. destruct Hv as (r & <- & _). simpl in *.
    rewrite Hid, get_set_eq. simpl. rewrite Hn. now apply or_default_nonempty.
  - intros v Hv Hid. unfold getActiveReminders in Hv. simpl in Hv.
    apply sort_In, in_map_iff in Hv. destruct Hv as (r & <- & _). simpl in *.
    rewrite Hid, get_set_eq. simpl. rewrite Hn. now apply or_default_nonempty.
Qed.

Lemma updateProject_rename_shown_witness :
  Forall (fun v => Reminder.projectId (rv_reminder v) = "proj-1" ->
                   rv_projectName v = "Tower A")
    (getActiveReminders
       (fst (updateProject store0 "proj-1" renameTowerA 1700000000900))).
Proof.
  destruct (updateProject_rename_shown store0 "proj-1" _ renameTowerA
              1700000000900 "Tower A" eq_refl eq_refl)
    as (_ & Hr); [discriminate|].
  apply Forall_forall. exact Hr.
Defined.

(** A test result created under a fresh identifier becomes the last entry of
    the list of test results, shown with the names of the project and the
    material test it references, or with the placeholders when they are
    missing or have an empty name; the entries before it are unchanged. *)
Theorem createTestResult_listed s result id now :
  JsMap.get (testResults s) id = None ->
  let s' := fst (createTestResult s result id now) in
  let r := snd (createTestResult s result id now) in
  getTestResults s' =
    (getTestResults s ++
     [{| trv_result := r;
         trv_projectName :=
           displayName
             (option_map Project.name (getProject s (InsertTestResult.projectId result)))
             "Unknown Project";
         trv_testName :=
           displayName
             (option_map MaterialTest.name
                (JsMap.get (materialTests s) (InsertTestResult.materialTestId result)))
             "Unknown Test" |}])%list /\
  r = TestResult.mk id (InsertTestResult.projectId result)
        (InsertTestResult.materialTestId result) (InsertTestResult.result result)
        (InsertTestResult.status result) now.
Proof.
  intros Hfresh. cbv zeta. unfold getTestResults, createTestResult, getProject.
  simpl. rewrite values_set_fresh by assumption. rewrite map_app. simpl.
  now rewrite !or_default_displayName.
Qed.

Lemma createTestResult_listed_witness :
  map trv_testName
    (getTestResults
       (fst (createTestResult store0
               (InsertTestResult.mk "proj-1" "test-8" "5 in" "fail")
               "res-1" 1700000000900)))
  = ["Unknown Test"].
Proof.
  destruct (createTestResult_listed store0
              (InsertTestResult.mk "proj-1" "test-8" "5 in" "fail")
              "res-1" 1700000000900 eq_refl)
    as (Hlist & _).
  rewrite Hlist. reflexivity.
Defined.
